(** * Teabag: the wizard, its file browser and the installation pipeline

    A shallow embedding of the fuzzy-search variant of the program
    (package [main]: [model], [Update], [handleFileBrowserKeys],
    [handleEnter], [loadDirectoryWithFilter], [applyFuzzySearch],
    [loadConfig], [install]) and the properties proved about it.

    Go strings are byte sequences: they are [string] here, one [ascii] per
    byte.  Go [int] values (the cursor, lengths, match indices) are [Z]; the
    program only ever adds or subtracts one under a guard that keeps the
    value between 0 and a slice length, so no wrap-around occurs.  The
    operating system, the process runner and the fuzzy matcher are
    interfaces ([OS], [Lib]); every theorem holds for all implementations
    of them. *)

From Stdlib Require Import String Ascii List ZArith Lia Bool.
Import ListNotations.
Local Open Scope string_scope.
Local Open Scope Z_scope.

(** ** Bytes and the [strings] package *)

(** The line feed and the double quote, as one-byte strings. *)
Definition LF : string := String (ascii_of_nat 10) EmptyString.
Definition DQUOTE : ascii := ascii_of_nat 34.

(** [len(s)] *)
Definition len (s : string) : Z := Z.of_nat (String.length s).

(** [len(l)] on a slice *)
Definition llen {A} (l : list A) : Z := Z.of_nat (List.length l).

(** [s[n:]] for [0 <= n <= len(s)] *)
Fixpoint slice_from (n : nat) (s : string) : string :=
  match n, s with
  | O, _ => s
  | S n', String _ s' => slice_from n' s'
  | S _, EmptyString => EmptyString
  end.

(** [s[:n]] for [0 <= n <= len(s)] *)
Fixpoint slice_to (n : nat) (s : string) : string :=
  match n, s with
  | O, _ => EmptyString
  | S n', String c s' => String c (slice_to n' s')
  | S _, EmptyString => EmptyString
  end.

(** Library functions that live outside the repository and are not
    modelled: the rune-wise case mapping [strings.ToLower] falls back to
    when its argument has a byte outside ASCII, and
    [fuzzy.FindFrom] of github.com/sahilm/fuzzy. *)
Record Match := { Str : string; Index : Z; Score : Z }.

Class Lib := {
  unicode_ToLower : string -> string;
  fuzzy_FindFrom : string -> list string -> list Match
}.

Module strings.

Definition HasPrefix (s prefix : string) : bool := String.prefix prefix s.

(** [len(s) >= len(suffix) && s[len(s)-len(suffix):] == suffix] *)
Definition HasSuffix (s suffix : string) : bool :=
    (String.length suffix <=? String.length s)%nat
    && String.eqb (slice_from (String.length s - String.length suffix) s) suffix.

(** [strings.CutPrefix]: the rest after [prefix], when [s] starts with it. *)
Definition CutPrefix (s prefix : string) : option string :=
    if HasPrefix s prefix then Some (slice_from (String.length prefix) s)
    else None.

Definition isUpper (c : ascii) : bool :=
    (65 <=? nat_of_ascii c)%nat && (nat_of_ascii c <=? 90)%nat.

Definition lowerByte (c : ascii) : ascii :=
    if isUpper c then ascii_of_nat (nat_of_ascii c + 32) else c.

Fixpoint isASCII (s : string) : bool :=
    match s with
    | EmptyString => true
    | String c s' => (nat_of_ascii c <? 128)%nat && isASCII s'
    end.

Fixpoint mapBytes (f : ascii -> ascii) (s : string) : string :=
    match s with
    | EmptyString => EmptyString
    | String c s' => String (f c) (mapBytes f s')
    end.

(** [strings.ToLower]: byte-wise on an ASCII string, the rune mapping
    otherwise. *)
Definition ToLower `{Lib} (s : string) : string :=
    if isASCII s then mapBytes lowerByte s else unicode_ToLower s.

(** [strings.ReplaceAll(s, old, new)] for a one-byte [old], which is the
    only way the program calls it. *)
Fixpoint ReplaceAll (s : string) (old : ascii) (new : string) : string :=
    match s with
    | EmptyString => EmptyString
    | String c s' =>
        if Ascii.eqb c old then new ++ ReplaceAll s' old new
        else String c (ReplaceAll s' old new)
    end.

(** [strings.Split(s, sep)] for a one-byte [sep]; [strings.SplitSeq]
    yields the same pieces in the same order. *)
Fixpoint Split (s : string) (sep : ascii) : list string :=
    match s with
    | EmptyString => [EmptyString]
    | String c s' =>
        match Split s' sep with
        | piece :: rest =>
            if Ascii.eqb c sep then EmptyString :: piece :: rest
            else String c piece :: rest
        | [] => [String c EmptyString]
        end
    end.

Fixpoint Join (elems : list string) (sep : string) : string :=
    match elems with
    | [] => EmptyString
    | [e] => e
    | e :: rest => e ++ sep ++ Join rest sep
    end.

Fixpoint inCutset (c : ascii) (cutset : string) : bool :=
    match cutset with
    | EmptyString => false
    | String d cutset' => Ascii.eqb c d || inCutset c cutset'
    end.

Fixpoint TrimLeft (s cutset : string) : string :=
    match s with
    | EmptyString => EmptyString
    | String c s' => if inCutset c cutset then TrimLeft s' cutset else s
    end.

Fixpoint TrimRight (s cutset : string) : string :=
    match s with
    | EmptyString => EmptyString
    | String c s' =>
        match TrimRight s' cutset with
        | EmptyString => if inCutset c cutset then EmptyString
                         else String c EmptyString
        | t => String c t
        end
    end.

(** [strings.Trim(s, cutset)] for a cutset of ASCII bytes. *)
Definition Trim (s cutset : string) : string :=
    TrimRight (TrimLeft s cutset) cutset.

End strings.

(** ** The [path/filepath] package on Unix *)

Module filepath.

Definition Separator : ascii := "/"%char.

Definition IsAbs (path : string) : bool := strings.HasPrefix path "/".

(** One step of the lexical clean-up: [out] is the stack of kept
    elements, last one first. *)
Definition cleanStep (rooted : bool) (out : list string) (e : string)
    : list string :=
    if String.eqb e "" || String.eqb e "." then out
    else if String.eqb e ".." then
      match out with
      | [] => if rooted then [] else [".."]
      | top :: out' => if String.eqb top ".." then e :: out else out'
      end
    else e :: out.

(** [filepath.Clean]: runs of separators collapse, [.] elements go, an
    inner [..] removes the element before it, a [..] at the root goes,
    and the empty result is [.]. *)
Definition Clean (path : string) : string :=
    let rooted := IsAbs path in
    let out := fold_left (cleanStep rooted) (strings.Split path Separator) [] in
    let body := strings.Join (rev out) "/" in
    if rooted then "/" ++ body
    else if String.eqb body "" then "." else body.

(** [filepath.Join]: the elements from the first non-empty one on,
    joined by the separator and cleaned; the empty string when all are
    empty. *)
Fixpoint Join (elem : list string) : string :=
    match elem with
    | [] => ""
    | e :: rest =>
        if String.eqb e "" then Join rest
        else Clean (strings.Join elem "/")
    end.

(** Trailing separators removed. *)
Definition stripTrailing (path : string) : string :=
    strings.TrimRight path "/".

(** The part after the last separator. *)
Definition lastElem (path : string) : string :=
    last (strings.Split path Separator) "".

Definition Base (path : string) : string :=
    if String.eqb path "" then "."
    else
      let p := lastElem (stripTrailing path) in
      if String.eqb p "" then "/" else p.

(** The part up to and including the last separator. *)
Definition dirPart (path : string) : string :=
    slice_to (String.length path - String.length (lastElem path)) path.

Definition Dir (path : string) : string := Clean (dirPart path).

End filepath.

(** ** Errors, the operating system and the effect monad *)

(** A Go [error]: its [Error()] text and whether [os.IsNotExist] holds of
    it. *)
Record GoError := { Error : string; IsNotExist : bool }.

(** [fmt.Errorf(text)] without verbs, and [fmt.Errorf(text + "%w", err)].
    A nil operand of [%w] prints as a bad verb. *)
Definition errorf (text : string) : GoError :=
  {| Error := text; IsNotExist := false |}.

Definition errorf_w (text : string) (err : option GoError) : GoError :=
  match err with
  | Some e => {| Error := text ++ Error e; IsNotExist := false |}
  | None => {| Error := text ++ "%!w(<nil>)"; IsNotExist := false |}
  end.

(** [os.IsNotExist(err)], false of nil. *)
Definition os_IsNotExist (err : option GoError) : bool :=
  match err with
  | Some e => IsNotExist e
  | None => false
  end.

(** What [os.ReadDir] gives for one entry. *)
Record DirEntry := { Name : string; IsDir : bool }.

(** The system calls and child processes the program uses.  A reading call
    leaves the world as it is; a writing call returns the new world with
    its error. *)
Class OS (World : Type) := {
  os_UserHomeDir : World -> string * option GoError;
  os_Getwd : World -> string * option GoError;
  os_TempDir : World -> string;
  os_Stat : World -> string -> option GoError;
  os_ReadFile : World -> string -> string * option GoError;
  os_ReadDir : World -> string -> list DirEntry * option GoError;
  exec_LookPath : World -> string -> string * option GoError;
  os_MkdirAll : World -> string -> Z -> option GoError * World;
  os_WriteFile : World -> string -> string -> Z -> option GoError * World;
  os_Rename : World -> string -> string -> option GoError * World;
  os_Chmod : World -> string -> Z -> option GoError * World;
  exec_Run : World -> list string -> option GoError * World
}.

(** The calls a run records in its trace: the writing calls, and the
    look-ups of a program on the path. *)
Inductive Call :=
| MkdirAll (path : string) (perm : Z)
| WriteFile (path data : string) (perm : Z)
| Rename (oldpath newpath : string)
| Chmod (path : string) (perm : Z)
| Run (argv : list string)
| LookPath (file : string).

Record Event := { call : Call; result : option GoError }.

(** A call that returned nil. *)
Definition ok (c : Call) : Event := {| call := c; result := None |}.

(** The permission bits [0755] and [0644]. *)
Definition perm0755 : Z := 493.
Definition perm0644 : Z := 420.

Section Effects.
Context {World : Type} `{OS World}.

(** The state a run threads: the world and the calls recorded so far,
    oldest first. *)
Record Sys := { world : World; trace : list Event }.

(** A computation either panics ([None]: an index out of range) or
    returns a value and the next state. *)
Definition M (A : Type) : Type := Sys -> option (A * Sys).

Definition ret {A} (a : A) : M A := fun s => Some (a, s).

Definition bind {A B} (m : M A) (k : A -> M B) : M B :=
    fun s => match m s with
             | Some (a, s') => k a s'
             | None => None
             end.

Definition panic {A} : M A := fun _ => None.

(** A value the runtime computes without the world, or panics. *)
Definition lift {A} (o : option A) : M A :=
    match o with
    | Some a => ret a
    | None => panic
    end.

(** A reading call. *)
Definition ask {A} (f : World -> A) : M A :=
    fun s => Some (f (world s), s).

(** A writing call, recorded with its result. *)
Definition sys (c : Call) (f : World -> option GoError * World)
    : M (option GoError) :=
    fun s => let '(r, w) := f (world s) in
             Some (r, {| world := w;
                         trace := trace s ++ [{| call := c; result := r |}] |}).

Definition Rename_ (oldpath newpath : string) : M (option GoError) :=
    sys (Rename oldpath newpath) (fun w => os_Rename w oldpath newpath).
Definition Chmod_ (p : string) (perm : Z) : M (option GoError) :=
    sys (Chmod p perm) (fun w => os_Chmod w p perm).
Definition MkdirAll_ (p : string) (perm : Z) : M (option GoError) :=
    sys (MkdirAll p perm) (fun w => os_MkdirAll w p perm).
Definition WriteFile_ (p data : string) (perm : Z) : M (option GoError) :=
    sys (WriteFile p data perm) (fun w => os_WriteFile w p data perm).
(** [exec.Command(argv...).Run()] *)
Definition Run_ (argv : list string) : M (option GoError) :=
    sys (Run argv) (fun w => exec_Run w argv).

(** [exec.LookPath(file)], recorded with its error. *)
Definition LookPath_ (file : string) : M (string * option GoError) :=
  fun s => let '(p, err) := exec_LookPath (world s) file in
           Some ((p, err),
                 {| world := world s;
                    trace := trace s ++ [{| call := LookPath file; result := err |}] |}).

(** [filepath.Abs] on Unix. *)
Definition Abs (w : World) (p : string) : string * option GoError :=
    if filepath.IsAbs p then (filepath.Clean p, None)
    else
      let '(wd, err) := os_Getwd w in
      match err with
      | Some e => ("", Some e)
      | None => (filepath.Join [wd; p], None)
      end.

End Effects.

Arguments Sys World : clear implicits.
Arguments M World A : clear implicits.

Declare Scope go_scope.
Delimit Scope go_scope with go.
Notation "x <- m ;; k" := (bind m (fun x => k))
  (at level 61, m at next level, right associativity) : go_scope.
Notation "' p <- m ;; k" := (bind m (fun p => k))
  (at level 61, p pattern, m at next level, right associativity) : go_scope.
Local Open Scope go_scope.

(** ** The data of the program *)

Inductive step :=
| stepFileBrowser
| stepAppImageDir
| stepAppName
| stepDescription
| stepIcon
| stepIconBrowser
| stepCategories
| stepProcessing
| stepComplete
| stepError.

Record fileEntry := { name : string; path : string; isDir : bool }.

Record model := {
  currentStep : step;
  appImagePath : string;
  appImageDir : string;
  appName : string;
  description : string;
  iconPath : string;
  categories : string;
  input : string;
  error : string;
  message : string;
  configPath : string;
  firstTimeSetup : bool;
  desktopFilePath : string;
  currentDir : string;
  files : list fileEntry;
  allFiles : list fileEntry;
  cursor : Z;
  searchMode : bool;
  searchQuery : string;
  fuzzyMatches : list Match
}.

(** Field assignment [m.f = v], one function per field that the program
    assigns. *)
Definition set_currentStep (v : step) (m : model) : model :=
  {| currentStep := v; appImagePath := appImagePath m; appImageDir :=
     appImageDir m; appName := appName m; description := description m;
     iconPath := iconPath m; categories := categories m; input := input m;
     error := error m; message := message m; configPath := configPath m;
     firstTimeSetup := firstTimeSetup m; desktopFilePath :=
     desktopFilePath m; currentDir := currentDir m; files := files m;
     allFiles := allFiles m; cursor := cursor m; searchMode := searchMode
     m; searchQuery := searchQuery m; fuzzyMatches := fuzzyMatches m |}.

Definition set_appImagePath (v : string) (m : model) : model :=
  {| currentStep := currentStep m; appImagePath := v; appImageDir :=
     appImageDir m; appName := appName m; description := description m;
     iconPath := iconPath m; categories := categories m; input := input m;
     error := error m; message := message m; configPath := configPath m;
     firstTimeSetup := firstTimeSetup m; desktopFilePath :=
     desktopFilePath m; currentDir := currentDir m; files := files m;
     allFiles := allFiles m; cursor := cursor m; searchMode := searchMode
     m; searchQuery := searchQuery m; fuzzyMatches := fuzzyMatches m |}.

Definition set_appImageDir (v : string) (m : model) : model :=
  {| currentStep := currentStep m; appImagePath := appImagePath m;
     appImageDir := v; appName := appName m; description := description m;
     iconPath := iconPath m; categories := categories m; input := input m;
     error := error m; message := message m; configPath := configPath m;
     firstTimeSetup := firstTimeSetup m; desktopFilePath :=
     desktopFilePath m; currentDir := currentDir m; files := files m;
     allFiles := allFiles m; cursor := cursor m; searchMode := searchMode
     m; searchQuery := searchQuery m; fuzzyMatches := fuzzyMatches m |}.

Definition set_appName (v : string) (m : model) : model :=
  {| currentStep := currentStep m; appImagePath := appImagePath m;
     appImageDir := appImageDir m; appName := v; description :=
     description m; iconPath := iconPath m; categories := categories m;
     input := input m; error := error m; message := message m; configPath
     := configPath m; firstTimeSetup := firstTimeSetup m; desktopFilePath
     := desktopFilePath m; currentDir := currentDir m; files := files m;
     allFiles := allFiles m; cursor := cursor m; searchMode := searchMode
     m; searchQuery := searchQuery m; fuzzyMatches := fuzzyMatches m |}.

Definition set_description (v : string) (m : model) : model :=
  {| currentStep := currentStep m; appImagePath := appImagePath m;
     appImageDir := appImageDir m; appName := appName m; description := v;
     iconPath := iconPath m; categories := categories m; input := input m;
     error := error m; message := message m; configPath := configPath m;
     firstTimeSetup := firstTimeSetup m; desktopFilePath :=
     desktopFilePath m; currentDir := currentDir m; files := files m;
     allFiles := allFiles m; cursor := cursor m; searchMode := searchMode
     m; searchQuery := searchQuery m; fuzzyMatches := fuzzyMatches m |}.

Definition set_iconPath (v : string) (m : model) : model :=
  {| currentStep := currentStep m; appImagePath := appImagePath m;
     appImageDir := appImageDir m; appName := appName m; description :=
     description m; iconPath := v; categories := categories m; input :=
     input m; error := error m; message := message m; configPath :=
     configPath m; firstTimeSetup := firstTimeSetup m; desktopFilePath :=
     desktopFilePath m; currentDir := currentDir m; files := files m;
     allFiles := allFiles m; cursor := cursor m; searchMode := searchMode
     m; searchQuery := searchQuery m; fuzzyMatches := fuzzyMatches m |}.

Definition set_categories (v : string) (m : model) : model :=
  {| currentStep := currentStep m; appImagePath := appImagePath m;
     appImageDir := appImageDir m; appName := appName m; description :=
     description m; iconPath := iconPath m; categories := v; input :=
     input m; error := error m; message := message m; configPath :=
     configPath m; firstTimeSetup := firstTimeSetup m; desktopFilePath :=
     desktopFilePath m; currentDir := currentDir m; files := files m;
     allFiles := allFiles m; cursor := cursor m; searchMode := searchMode
     m; searchQuery := searchQuery m; fuzzyMatches := fuzzyMatches m |}.

Definition set_input (v : string) (m : model) : model :=
  {| currentStep := currentStep m; appImagePath := appImagePath m;
     appImageDir := appImageDir m; appName := appName m; description :=
     description m; iconPath := iconPath m; categories := categories m;
     input := v; error := error m; message := message m; configPath :=
     configPath m; firstTimeSetup := firstTimeSetup m; desktopFilePath :=
     desktopFilePath m; currentDir := currentDir m; files := files m;
     allFiles := allFiles m; cursor := cursor m; searchMode := searchMode
     m; searchQuery := searchQuery m; fuzzyMatches := fuzzyMatches m |}.

Definition set_error (v : string) (m : model) : model :=
  {| currentStep := currentStep m; appImagePath := appImagePath m;
     appImageDir := appImageDir m; appName := appName m; description :=
     description m; iconPath := iconPath m; categories := categories m;
     input := input m; error := v; message := message m; configPath :=
     configPath m; firstTimeSetup := firstTimeSetup m; desktopFilePath :=
     desktopFilePath m; currentDir := currentDir m; files := files m;
     allFiles := allFiles m; cursor := cursor m; searchMode := searchMode
     m; searchQuery := searchQuery m; fuzzyMatches := fuzzyMatches m |}.

Definition set_firstTimeSetup (v : bool) (m : model) : model :=
  {| currentStep := currentStep m; appImagePath := appImagePath m;
     appImageDir := appImageDir m; appName := appName m; description :=
     description m; iconPath := iconPath m; categories := categories m;
     input := input m; error := error m; message := message m; configPath
     := configPath m; firstTimeSetup := v; desktopFilePath :=
     desktopFilePath m; currentDir := currentDir m; files := files m;
     allFiles := allFiles m; cursor := cursor m; searchMode := searchMode
     m; searchQuery := searchQuery m; fuzzyMatches := fuzzyMatches m |}.

Definition set_desktopFilePath (v : string) (m : model) : model :=
  {| currentStep := currentStep m; appImagePath := appImagePath m;
     appImageDir := appImageDir m; appName := appName m; description :=
     description m; iconPath := iconPath m; categories := categories m;
     input := input m; error := error m; message := message m; configPath
     := configPath m; firstTimeSetup := firstTimeSetup m; desktopFilePath
     := v; currentDir := currentDir m; files := files m; allFiles :=
     allFiles m; cursor := cursor m; searchMode := searchMode m;
     searchQuery := searchQuery m; fuzzyMatches := fuzzyMatches m |}.

Definition set_currentDir (v : string) (m : model) : model :=
  {| currentStep := currentStep m; appImagePath := appImagePath m;
     appImageDir := appImageDir m; appName := appName m; description :=
     description m; iconPath := iconPath m; categories := categories m;
     input := input m; error := error m; message := message m; configPath
     := configPath m; firstTimeSetup := firstTimeSetup m; desktopFilePath
     := desktopFilePath m; currentDir := v; files := files m; allFiles :=
     allFiles m; cursor := cursor m; searchMode := searchMode m;
     searchQuery := searchQuery m; fuzzyMatches := fuzzyMatches m |}.

Definition set_files (v : list fileEntry) (m : model) : model :=
  {| currentStep := currentStep m; appImagePath := appImagePath m;
     appImageDir := appImageDir m; appName := appName m; description :=
     description m; iconPath := iconPath m; categories := categories m;
     input := input m; error := error m; message := message m; configPath
     := configPath m; firstTimeSetup := firstTimeSetup m; desktopFilePath
     := desktopFilePath m; currentDir := currentDir m; files := v;
     allFiles := allFiles m; cursor := cursor m; searchMode := searchMode
     m; searchQuery := searchQuery m; fuzzyMatches := fuzzyMatches m |}.

Definition set_allFiles (v : list fileEntry) (m : model) : model :=
  {| currentStep := currentStep m; appImagePath := appImagePath m;
     appImageDir := appImageDir m; appName := appName m; description :=
     description m; iconPath := iconPath m; categories := categories m;
     input := input m; error := error m; message := message m; configPath
     := configPath m; firstTimeSetup := firstTimeSetup m; desktopFilePath
     := desktopFilePath m; currentDir := currentDir m; files := files m;
     allFiles := v; cursor := cursor m; searchMode := searchMode m;
     searchQuery := searchQuery m; fuzzyMatches := fuzzyMatches m |}.

Definition set_cursor (v : Z) (m : model) : model :=
  {| currentStep := currentStep m; appImagePath := appImagePath m;
     appImageDir := appImageDir m; appName := appName m; description :=
     description m; iconPath := iconPath m; categories := categories m;
     input := input m; error := error m; message := message m; configPath
     := configPath m; firstTimeSetup := firstTimeSetup m; desktopFilePath
     := desktopFilePath m; currentDir := currentDir m; files := files m;
     allFiles := allFiles m; cursor := v; searchMode := searchMode m;
     searchQuery := searchQuery m; fuzzyMatches := fuzzyMatches m |}.

Definition set_searchMode (v : bool) (m : model) : model :=
  {| currentStep := currentStep m; appImagePath := appImagePath m;
     appImageDir := appImageDir m; appName := appName m; description :=
     description m; iconPath := iconPath m; categories := categories m;
     input := input m; error := error m; message := message m; configPath
     := configPath m; firstTimeSetup := firstTimeSetup m; desktopFilePath
     := desktopFilePath m; currentDir := currentDir m; files := files m;
     allFiles := allFiles m; cursor := cursor m; searchMode := v;
     searchQuery := searchQuery m; fuzzyMatches := fuzzyMatches m |}.

Definition set_searchQuery (v : string) (m : model) : model :=
  {| currentStep := currentStep m; appImagePath := appImagePath m;
     appImageDir := appImageDir m; appName := appName m; description :=
     description m; iconPath := iconPath m; categories := categories m;
     input := input m; error := error m; message := message m; configPath
     := configPath m; firstTimeSetup := firstTimeSetup m; desktopFilePath
     := desktopFilePath m; currentDir := currentDir m; files := files m;
     allFiles := allFiles m; cursor := cursor m; searchMode := searchMode
     m; searchQuery := v; fuzzyMatches := fuzzyMatches m |}.

Definition set_fuzzyMatches (v : list Match) (m : model) : model :=
  {| currentStep := currentStep m; appImagePath := appImagePath m;
     appImageDir := appImageDir m; appName := appName m; description :=
     description m; iconPath := iconPath m; categories := categories m;
     input := input m; error := error m; message := message m; configPath
     := configPath m; firstTimeSetup := firstTimeSetup m; desktopFilePath
     := desktopFilePath m; currentDir := currentDir m; files := files m;
     allFiles := allFiles m; cursor := cursor m; searchMode := searchMode
     m; searchQuery := searchQuery m; fuzzyMatches := v |}.

(** Messages delivered to [Update], and the commands it returns.  A
    [tea.Cmd] is a function that yields a message when the runtime calls
    it; the program builds three kinds: [tea.Quit], a function that
    returns a message fixed when it was built, and the function of
    [install] that copies with pkexec. *)
Inductive Msg :=
| KeyMsg (key : string)
| installCompleteMsg (err : option GoError)
| QuitMsg.

Inductive Cmd :=
| CmdNil
| Quit
| CmdReturn (msg : Msg)
| CmdPkexecCopy (tmpDesktopFile desktopFile desktopDir : string).

(** [l[i]], which panics outside [0 <= i < len(l)]. *)
Definition index {A} (l : list A) (i : Z) : option A :=
  if (0 <=? i) && (i <? llen l) then nth_error l (Z.to_nat i) else None.

Definition configFile : string := ".config/teabag.conf".

Definition extensions : list string :=
  [".png"; ".jpg"; ".jpeg"; ".svg"; ".ico"; ".xpm"; ".bmp"; ".gif"; ".webp"].

Definition desktopDir : string := "/usr/share/applications".

(** ** The program *)

Section Program.
Context {World : Type} `{OS World} `{Lib}.

#[local] Abbreviation IO := (M World).

(** [isImageFile] checks if a filename has a common image extension. *)
Definition isImageFile (name : string) : bool :=
  let lower := strings.ToLower name in
  existsb (fun ext => strings.HasSuffix lower ext) extensions.

(** The test of the non-icon browser. *)
Definition isAppImage (name : string) : bool :=
  strings.HasSuffix (strings.ToLower name) ".appimage".

(** The first line that starts with the key decides. *)
Fixpoint findAppImageDir (lines : list string) : option string :=
  match lines with
  | [] => None
  | line :: rest =>
      match strings.CutPrefix line "APPIMAGE_DIR=" with
      | Some dir => Some (strings.Trim dir (String DQUOTE ""))
      | None => findAppImageDir rest
      end
  end.

Definition loadConfig (p : string) : IO (string * option GoError) :=
  '(data, err) <- ask (fun w => os_ReadFile w p) ;;
  match err with
  | Some e => ret ("", Some e)
  | None =>
      match findAppImageDir (strings.Split data (ascii_of_nat 10)) with
      | Some dir => ret (dir, None)
      | None => ret ("", Some (errorf "APPIMAGE_DIR not found in config"))
      end
  end.

Definition saveConfig (p appImageDir : string) : IO (option GoError) :=
  let dirPath := filepath.Dir p in
  err <- MkdirAll_ dirPath perm0755 ;;
  match err with
  | Some e => ret (Some e)
  | None =>
      let content :=
        "APPIMAGE_DIR=" ++ String DQUOTE appImageDir ++ String DQUOTE LF in
      WriteFile_ p content perm0644
  end.

(** What one directory entry adds to the listing. *)
Definition listEntry (iconMode : bool) (dir : string) (entry : DirEntry)
  : list fileEntry :=
  let fullPath := filepath.Join [dir; Name entry] in
  if IsDir entry then
    [{| name := Name entry; path := fullPath; isDir := true |}]
  else if iconMode && isImageFile (Name entry) then
    [{| name := Name entry; path := fullPath; isDir := false |}]
  else if negb iconMode && isAppImage (Name entry) then
    [{| name := Name entry; path := fullPath; isDir := false |}]
  else [].

(** The parent entry, unless at the root. *)
Definition parentEntry (dir : string) : list fileEntry :=
  if String.eqb dir "/" then []
  else [{| name := ".."; path := filepath.Dir dir; isDir := true |}].

Definition loadDirectoryWithFilter (iconMode : bool) (m : model) : IO model :=
  let m := set_allFiles [] m in
  let m := set_files [] m in
  let m := set_cursor 0 m in
  let m := set_searchMode false m in
  let m := set_searchQuery "" m in
  let m := set_fuzzyMatches [] m in
  '(entries, err) <- ask (fun w => os_ReadDir w (currentDir m)) ;;
  match err with
  | Some e => ret (set_error ("Failed to read directory: " ++ Error e) m)
  | None =>
      let m := set_allFiles (allFiles m ++ parentEntry (currentDir m)) m in
      let m :=
        fold_left
          (fun m entry =>
             set_allFiles (allFiles m ++ listEntry iconMode (currentDir m) entry) m)
          entries m in
      ret (set_files (allFiles m) m)
  end.

Definition loadDirectory : model -> IO model := loadDirectoryWithFilter false.
Definition loadIconDirectory : model -> IO model := loadDirectoryWithFilter true.

(** The loop of [applyFuzzySearch] that collects [allFiles[match.Index]]. *)
Fixpoint pickMatches (all : list fileEntry) (matches : list Match)
  : option (list fileEntry) :=
  match matches with
  | [] => Some []
  | mt :: rest =>
      match index all (Index mt) with
      | None => None
      | Some e =>
          match pickMatches all rest with
          | None => None
          | Some es => Some (e :: es)
          end
      end
  end.

Definition applyFuzzySearch (m : model) : option model :=
  if String.eqb (searchQuery m) "" then
    Some (set_cursor 0 (set_fuzzyMatches [] (set_files (allFiles m) m)))
  else
    let matches := fuzzy_FindFrom (searchQuery m) (map name (allFiles m)) in
    let m := set_fuzzyMatches matches m in
    match pickMatches (allFiles m) matches with
    | None => None
    | Some fs =>
        let m := set_files fs m in
        if cursor m >=? llen (files m)
        then Some (set_cursor (Z.max 0 (llen (files m) - 1)) m)
        else Some m
    end.

Definition isFileBrowserStep (m : model) : bool :=
  match currentStep m with
  | stepFileBrowser | stepIconBrowser => true
  | _ => false
  end.

(** The launcher-metadata text, built as [install] builds it. *)
Definition desktopEntryText (appName destFile categories description iconPath
  : string) : string :=
  let desktopEntry :=
    "[Desktop Entry]" ++ LF ++ "Name=" ++ appName ++ LF
    ++ "Exec=" ++ destFile ++ LF ++ "Type=Application" ++ LF
    ++ "Categories=" ++ categories ++ LF in
  let desktopEntry :=
    if negb (String.eqb description "")
    then desktopEntry ++ ("Comment=" ++ description ++ LF)
    else desktopEntry in
  let desktopEntry :=
    if negb (String.eqb iconPath "")
    then desktopEntry ++ ("Icon=" ++ iconPath ++ LF)
    else desktopEntry in
  desktopEntry.

Definition desktopFilenameOf (appName : string) : string :=
  strings.ToLower (strings.ReplaceAll appName " "%char "-") ++ ".desktop".

(** The destination of the move, from the absolute source path. *)
Definition destFileOf (appImageDir absPath : string) : string :=
  let appImageFilename := filepath.Base absPath in
  filepath.Join [appImageDir; appImageFilename].

Definition privilegesText : string :=
  "Installation requires administrator privileges. " ++ LF ++ LF
  ++ " Rerun with sudo or pkexec." ++ LF.

(** [install].  The receiver is a pointer: the assignment to
    [desktopFilePath] is returned with the command.  [err] is the variable
    declared with [absPath]; the later [err]s of the source are declared in
    the scopes of their [if] statements and are [e], [errnoperm] and
    [lookErr] here. *)
Definition install (m : model) : IO (model * Cmd) :=
  '(absPath, err) <- ask (fun w => Abs w (appImagePath m)) ;;
  match err with
  | Some _ =>
      ret (m, CmdReturn (installCompleteMsg
                 (Some (errorf_w "failed to get absolute path: " err))))
  | None =>
  let destFile := destFileOf (appImageDir m) absPath in
  e <- (if negb (String.eqb absPath destFile)
        then Rename_ absPath destFile else ret None) ;;
  match e with
  | Some _ =>
      ret (m, CmdReturn (installCompleteMsg
                 (Some (errorf_w "failed to move file: " e))))
  | None =>
  e <- Chmod_ destFile perm0755 ;;
  match e with
  | Some _ =>
      ret (m, CmdReturn (installCompleteMsg
                 (Some (errorf_w "failed to make executable: " e))))
  | None =>
  let desktopEntry :=
    desktopEntryText (appName m) destFile (categories m) (description m)
      (iconPath m) in
  let desktopFilename := desktopFilenameOf (appName m) in
  tmp <- ask os_TempDir ;;
  let tmpDesktopFile := filepath.Join [tmp; desktopFilename] in
  e <- WriteFile_ tmpDesktopFile desktopEntry perm0644 ;;
  match e with
  | Some _ =>
      ret (m, CmdReturn (installCompleteMsg
                 (Some (errorf_w "failed to create temp desktop entry: " e))))
  | None =>
  let m := set_desktopFilePath (filepath.Join [desktopDir; desktopFilename]) m in
  let requiresPrivileges :=
    CmdReturn (installCompleteMsg (Some (errorf_w privilegesText err))) in
  errnoperm <- Run_ ["cp"; tmpDesktopFile; desktopFilePath m] ;;
  match errnoperm with
  | Some _ =>
      '(_, lookErr) <- LookPath_ "pkexec" ;;
      match lookErr with
      | None => ret (m, CmdPkexecCopy tmpDesktopFile (desktopFilePath m) desktopDir)
      | Some _ => ret (m, requiresPrivileges)
      end
  | None => ret (m, requiresPrivileges)
  end end end end end.

(** What the runtime gets when it calls a command.  The pkexec function
    also assigns [message] through its pointer to the local copy of
    [handleEnter], which no later [Update] or [View] reads. *)
Definition runCmd (c : Cmd) : IO (option Msg) :=
  match c with
  | CmdNil => ret None
  | Quit => ret (Some QuitMsg)
  | CmdReturn msg => ret (Some msg)
  | CmdPkexecCopy tmpDesktopFile desktopFile dir =>
      e <- Run_ ["pkexec"; "cp"; tmpDesktopFile; desktopFile] ;;
      match e with
      | Some _ =>
          ret (Some (installCompleteMsg
                 (Some (errorf_w "failed to copy desktop file: " e))))
      | None =>
          '(_, lookErr) <- LookPath_ "update-desktop-database" ;;
          _ <- match lookErr with
               | None => Run_ ["pkexec"; "update-desktop-database"; dir]
               | Some _ => ret None
               end ;;
          ret (Some (installCompleteMsg None))
      end
  end.

(** [handleEnter].  In the [stepCategories] case the returned model is the
    one [install] has assigned [desktopFilePath] in, which is what the
    completion screen of the program shows. *)
Definition handleEnter (m : model) : IO (model * Cmd) :=
  match currentStep m with
  | stepFileBrowser =>
      if llen (files m) =? 0 then ret (m, CmdNil)
      else
        selected <- lift (index (files m) (cursor m)) ;;
        if isDir selected then
          m <- loadDirectory (set_currentDir (path selected) m) ;;
          ret (m, CmdNil)
        else
          let m := set_appImagePath (path selected) m in
          '(homeDir, _) <- ask os_UserHomeDir ;;
          st <- ask (fun w => os_Stat w (configPath m)) ;;
          if os_IsNotExist st then
            let m := set_firstTimeSetup true m in
            let m := set_currentStep stepAppImageDir m in
            ret (set_input (filepath.Join [homeDir; "Applications"]) m, CmdNil)
          else
            '(dir, err) <- loadConfig (configPath m) ;;
            match err with
            | None =>
                ret (set_currentStep stepAppName (set_appImageDir dir m), CmdNil)
            | Some e =>
                let m := set_currentStep stepError m in
                ret (set_error ("Failed to load config: " ++ Error e) m, CmdNil)
            end
  | stepAppImageDir =>
      m <- (if String.eqb (input m) "" then
              '(homeDir, _) <- ask os_UserHomeDir ;;
              ret (set_input (filepath.Join [homeDir; "Applications"]) m)
            else ret m) ;;
      let m := set_appImageDir (input m) m in
      e <- MkdirAll_ (appImageDir m) perm0755 ;;
      match e with
      | Some e =>
          let m := set_currentStep stepError m in
          ret (set_error ("Failed to create directory: " ++ Error e) m, CmdNil)
      | None =>
          e <- saveConfig (configPath m) (appImageDir m) ;;
          match e with
          | Some e =>
              let m := set_currentStep stepError m in
              ret (set_error ("Failed to save config: " ++ Error e) m, CmdNil)
          | None =>
              ret (set_input "" (set_currentStep stepAppName m), CmdNil)
          end
      end
  | stepAppName =>
      if String.eqb (input m) "" then
        ret (set_error "Application name is required" m, CmdNil)
      else
        let m := set_appName (input m) m in
        let m := set_currentStep stepDescription m in
        let m := set_input "" m in
        ret (set_error "" m, CmdNil)
  | stepDescription =>
      let m := set_description (input m) m in
      let m := set_currentStep stepIcon m in
      ret (set_input "" m, CmdNil)
  | stepIcon =>
      if String.eqb (input m) "b" || String.eqb (input m) "B" then
        '(homeDir, _) <- ask os_UserHomeDir ;;
        let m := set_currentDir homeDir m in
        let m := set_currentStep stepIconBrowser m in
        let m := set_input "" m in
        m <- loadIconDirectory m ;;
        ret (m, CmdNil)
      else
        st <- (if negb (String.eqb (input m) "")
               then ask (fun w => os_Stat w (input m)) else ret None) ;;
        if os_IsNotExist st then
          ret (set_error ("Warning: Icon file not found: " ++ input m) m, CmdNil)
        else
          let m := set_iconPath (input m) m in
          let m := set_currentStep stepCategories m in
          let m := set_input "Utility;" m in
          ret (set_error "" m, CmdNil)
  | stepIconBrowser =>
      if llen (files m) =? 0 then ret (m, CmdNil)
      else
        selected <- lift (index (files m) (cursor m)) ;;
        if isDir selected then
          m <- loadIconDirectory (set_currentDir (path selected) m) ;;
          ret (m, CmdNil)
        else
          let m := set_iconPath (path selected) m in
          let m := set_currentStep stepCategories m in
          let m := set_input "Utility;" m in
          ret (set_error "" m, CmdNil)
  | stepCategories =>
      let m := if String.eqb (input m) "" then set_input "Utility;" m else m in
      let m := if negb (strings.HasSuffix (input m) ";")
               then set_input (input m ++ ";") m else m in
      let m := set_categories (input m) m in
      let m := set_currentStep stepProcessing m in
      let m := set_input "" m in
      install m
  | stepComplete | stepError => ret (m, Quit)
  | stepProcessing => ret (m, CmdNil)
  end.

Definition initialModel (appImagePath : string) : IO model :=
  '(homeDir, _) <- ask os_UserHomeDir ;;
  let configPath := filepath.Join [homeDir; configFile] in
  let m :=
    {| currentStep := stepFileBrowser; appImagePath := appImagePath;
       appImageDir := ""; appName := ""; description := ""; iconPath := "";
       categories := "Utility;"; input := ""; error := ""; message := "";
       configPath := configPath; firstTimeSetup := false;
       desktopFilePath := ""; currentDir := ""; files := []; allFiles := [];
       cursor := 0; searchMode := false; searchQuery := "";
       fuzzyMatches := [] |} in
  if String.eqb appImagePath "" then
    let m := set_currentStep stepFileBrowser m in
    '(wd, _) <- ask os_Getwd ;;
    loadDirectory (set_currentDir wd m)
  else
    st <- ask (fun w => os_Stat w configPath) ;;
    if os_IsNotExist st then
      let m := set_firstTimeSetup true m in
      let m := set_currentStep stepAppImageDir m in
      ret (set_input (filepath.Join [homeDir; "Applications"]) m)
    else
      '(dir, err) <- loadConfig configPath ;;
      match err with
      | None => ret (set_currentStep stepAppName (set_appImageDir dir m))
      | Some e =>
          let m := set_currentStep stepError m in
          ret (set_error ("Failed to load config: " ++ Error e) m)
      end.

(** [m.searchQuery[:len(m.searchQuery)-1]] *)
Definition dropLast (s : string) : string :=
  slice_to (String.length s - 1) s.

Definition cursorUp (m : model) : model :=
  if cursor m >? 0 then set_cursor (cursor m - 1) m else m.

Definition cursorDown (m : model) : model :=
  if cursor m <? llen (files m) - 1 then set_cursor (cursor m + 1) m else m.

Definition handleFileBrowserKeys (m : model) (key : string) : IO (model * Cmd) :=
  if searchMode m then
    if String.eqb key "ctrl+c" then ret (m, Quit)
    else if String.eqb key "esc" then
      let m := set_searchMode false m in
      let m := set_searchQuery "" m in
      let m := set_files (allFiles m) m in
      let m := set_fuzzyMatches [] m in
      ret (set_cursor 0 m, CmdNil)
    else if String.eqb key "enter" then
      handleEnter (set_searchMode false m)
    else if String.eqb key "backspace" then
      if len (searchQuery m) >? 0 then
        m <- lift (applyFuzzySearch
                     (set_searchQuery (dropLast (searchQuery m)) m)) ;;
        ret (m, CmdNil)
      else ret (m, CmdNil)
    else if String.eqb key "up" then ret (cursorUp m, CmdNil)
    else if String.eqb key "down" then ret (cursorDown m, CmdNil)
    else if len key =? 1 then
      m <- lift (applyFuzzySearch (set_searchQuery (searchQuery m ++ key) m)) ;;
      ret (m, CmdNil)
    else ret (m, CmdNil)
  else
    if String.eqb key "ctrl+c" || String.eqb key "esc" then ret (m, Quit)
    else if String.eqb key "/" then
      ret (set_searchQuery "" (set_searchMode true m), CmdNil)
    else if String.eqb key "up" then ret (cursorUp m, CmdNil)
    else if String.eqb key "down" then ret (cursorDown m, CmdNil)
    else if String.eqb key "k" then ret (cursorUp m, CmdNil)
    else if String.eqb key "j" then ret (cursorDown m, CmdNil)
    else if String.eqb key "enter" then handleEnter m
    else if String.eqb key "backspace" then
      if negb (String.eqb (currentDir m) "/") then
        let m := set_currentDir (filepath.Dir (currentDir m)) m in
        m <- (match currentStep m with
              | stepIconBrowser => loadIconDirectory m
              | _ => loadDirectory m
              end) ;;
        ret (m, CmdNil)
      else ret (m, CmdNil)
    else ret (m, CmdNil).

Definition Update (m : model) (msg : Msg) : IO (model * Cmd) :=
  match msg with
  | KeyMsg key =>
      if isFileBrowserStep m then handleFileBrowserKeys m key
      else if String.eqb key "ctrl+c" || String.eqb key "esc" then ret (m, Quit)
      else if String.eqb key "enter" then handleEnter m
      else if String.eqb key "backspace" then
        if len (input m) >? 0
        then ret (set_input (dropLast (input m)) m, CmdNil)
        else ret (m, CmdNil)
      else
        match currentStep m with
        | stepProcessing | stepComplete | stepError => ret (m, CmdNil)
        | _ => ret (set_input (input m ++ key) m, CmdNil)
        end
  | installCompleteMsg err =>
      match err with
      | Some e => ret (set_error (Error e) (set_currentStep stepError m), CmdNil)
      | None => ret (set_currentStep stepComplete m, CmdNil)
      end
  | QuitMsg => ret (m, CmdNil)
  end.

(** The installation pipeline as the runtime drives it: [install] builds
    the command, the runtime calls it, and its message is the one outcome
    of the run. *)
Definition pipeline (m : model) : IO (option Msg) :=
  '(_, cmd) <- install m ;;
  runCmd cmd.

End Program.

(** ** A small world to run the program in

    An in-memory file system with two switches: whether the unprivileged
    [cp] into the registration directory is allowed, and whether pkexec is
    installed.  The matcher keeps the labels that contain the query as a
    subsequence, in listing order. *)

Module Sample.

Record World := {
  home : string;
  cwd : string;
  tree : list (string * list DirEntry);
  contents : list (string * string);
  cpAllowed : bool;
  hasPkexec : bool
}.

Fixpoint lookup {A} (k : string) (l : list (string * A)) : option A :=
  match l with
  | [] => None
  | (k', v) :: rest => if String.eqb k k' then Some v else lookup k rest
  end.

Fixpoint remove {A} (k : string) (l : list (string * A)) : list (string * A) :=
  match l with
  | [] => []
  | (k', v) :: rest =>
      if String.eqb k k' then remove k rest else (k', v) :: remove k rest
  end.

Definition noent (op p : string) : GoError :=
  {| Error := op ++ " " ++ p ++ ": no such file or directory";
     IsNotExist := true |}.

Definition withContents (c : list (string * string)) (w : World) : World :=
  {| home := home w; cwd := cwd w; tree := tree w; contents := c;
     cpAllowed := cpAllowed w; hasPkexec := hasPkexec w |}.

Definition withTree (t : list (string * list DirEntry)) (w : World) : World :=
  {| home := home w; cwd := cwd w; tree := t; contents := contents w;
     cpAllowed := cpAllowed w; hasPkexec := hasPkexec w |}.

Definition stat (w : World) (p : string) : option GoError :=
  match lookup p (contents w), lookup p (tree w) with
  | None, None => Some (noent "stat" p)
  | _, _ => None
  end.

Definition readFile (w : World) (p : string) : string * option GoError :=
  match lookup p (contents w) with
  | Some data => (data, None)
  | None => ("", Some (noent "open" p))
  end.

Definition readDir (w : World) (p : string) : list DirEntry * option GoError :=
  match lookup p (tree w) with
  | Some entries => (entries, None)
  | None => ([], Some (noent "open" p))
  end.

Definition lookPath (w : World) (file : string) : string * option GoError :=
  if String.eqb file "pkexec" && negb (hasPkexec w)
  then ("", Some {| Error := "exec: pkexec: executable file not found in $PATH";
                    IsNotExist := false |})
  else ("/usr/bin/" ++ file, None).

Definition mkdirAll (w : World) (p : string) (perm : Z) : option GoError * World :=
  match lookup p (tree w) with
  | Some _ => (None, w)
  | None => (None, withTree ((p, []) :: tree w) w)
  end.

Definition writeFile (w : World) (p data : string) (perm : Z)
  : option GoError * World :=
  (None, withContents ((p, data) :: remove p (contents w)) w).

Definition rename (w : World) (oldpath newpath : string)
  : option GoError * World :=
  match lookup oldpath (contents w) with
  | Some data =>
      (None,
       withContents ((newpath, data) :: remove newpath (remove oldpath (contents w))) w)
  | None => (Some (noent "rename" oldpath), w)
  end.

Definition chmod (w : World) (p : string) (perm : Z) : option GoError * World :=
  match lookup p (contents w) with
  | Some _ => (None, w)
  | None => (Some (noent "chmod" p), w)
  end.

Definition exitStatus1 : GoError :=
  {| Error := "exit status 1"; IsNotExist := false |}.

Definition copy (w : World) (src dst : string) : option GoError * World :=
  match lookup src (contents w) with
  | Some data => (None, withContents ((dst, data) :: remove dst (contents w)) w)
  | None => (Some exitStatus1, w)
  end.

Definition run (w : World) (argv : list string) : option GoError * World :=
  match argv with
  | ["cp"; src; dst] =>
      if cpAllowed w then copy w src dst else (Some exitStatus1, w)
  | ["pkexec"; "cp"; src; dst] =>
      if hasPkexec w then copy w src dst else (Some exitStatus1, w)
  | _ => (None, w)
  end.

#[global] Instance os : OS World := {|
  os_UserHomeDir := fun w => (home w, None);
  os_Getwd := fun w => (cwd w, None);
  os_TempDir := fun _ => "/tmp";
  os_Stat := stat;
  os_ReadFile := readFile;
  os_ReadDir := readDir;
  exec_LookPath := lookPath;
  os_MkdirAll := mkdirAll;
  os_WriteFile := writeFile;
  os_Rename := rename;
  os_Chmod := chmod;
  exec_Run := run
|}.

(** [q] is a subsequence of [s]. *)
Fixpoint subseq (q s : string) : bool :=
  match q, s with
  | EmptyString, _ => true
  | _, EmptyString => false
  | String a q', String b s' =>
      if Ascii.eqb a b then subseq q' s' else subseq q s'
  end.

Fixpoint findFrom (q : string) (i : Z) (labels : list string) : list Match :=
  match labels with
  | [] => []
  | l :: rest =>
      if subseq q l
      then {| Str := l; Index := i; Score := 0 |} :: findFrom q (i + 1) rest
      else findFrom q (i + 1) rest
  end.

#[global] Instance lib : Lib := {|
  unicode_ToLower := fun s => s;
  fuzzy_FindFrom := fun q labels => findFrom q 0 labels
|}.

(** A user [u] with two bundles and a picture in the download directory,
    every directory in the order [os.ReadDir] reports, sorted by name;
    [config] is the text of the configuration file, if there is one. *)
Definition machine (cpOk pkexec : bool) (config : option string) : World :=
  {| home := "/home/u";
     cwd := "/home/u/Downloads";
     tree :=
       [("/", [{| Name := "home"; IsDir := true |};
               {| Name := "tmp"; IsDir := true |}]);
        ("/home", [{| Name := "u"; IsDir := true |}]);
        ("/home/u", [{| Name := "Apps"; IsDir := true |};
                     {| Name := "Downloads"; IsDir := true |};
                     {| Name := "logo.PNG"; IsDir := false |};
                     {| Name := "notes.txt"; IsDir := false |}]);
        ("/home/u/Apps", []);
        ("/home/u/Downloads",
         [{| Name := "App.AppImage"; IsDir := false |};
          {| Name := "old"; IsDir := true |};
          {| Name := "pic.svg"; IsDir := false |};
          {| Name := "readme.md"; IsDir := false |};
          {| Name := "tool.appimage"; IsDir := false |}]);
        ("/home/u/Downloads/old", [])];
     contents :=
       match config with
       | Some c => [("/home/u/.config/teabag.conf", c)]
       | None => []
       end
       ++ [("/tmp/App.bundle", "ELF");
           ("/home/u/Downloads/App.AppImage", "ELF");
           ("/home/u/Downloads/tool.appimage", "ELF");
           ("/home/u/logo.PNG", "PNG")];
     cpAllowed := cpOk;
     hasPkexec := pkexec |}.

Definition start (w : World) : Sys World := {| world := w; trace := [] |}.

(** A model with every field empty, at the given step. *)
Definition blank (st : step) : model :=
  {| currentStep := st; appImagePath := ""; appImageDir := ""; appName := "";
     description := ""; iconPath := ""; categories := "Utility;"; input := "";
     error := ""; message := ""; configPath := "/home/u/.config/teabag.conf";
     firstTimeSetup := false; desktopFilePath := ""; currentDir := "";
     files := []; allFiles := []; cursor := 0; searchMode := false;
     searchQuery := ""; fuzzyMatches := [] |}.

(** Feed keys to [Update], dropping the commands. *)
Fixpoint keys (ks : list string) (m : model) : M World model :=
  match ks with
  | [] => ret m
  | k :: rest => '(m', _) <- Update m (KeyMsg k) ;; keys rest m'
  end.

(** The value of a run, or [d] if it panics. *)
Definition valueOf {A} (d : A) (x : M World A) (s : Sys World) : A :=
  match x s with
  | Some (a, _) => a
  | None => d
  end.

(** The configuration file as [saveConfig] writes it for [/home/u/Apps]. *)
Definition configured : string :=
  "APPIMAGE_DIR=" ++ String DQUOTE "/home/u/Apps" ++ String DQUOTE LF.

(** Three machines: one where the unprivileged copy works, one where it
    is denied and pkexec is missing, one whose configuration file lacks
    the key. *)
Definition asRoot : Sys World := start (machine true true (Some configured)).
Definition denied : Sys World := start (machine false false (Some configured)).
Definition misconfigured : Sys World :=
  start (machine false true (Some ("DIR=/home/u/Apps" ++ LF))).

(** Two more machines: one where the copy is denied and pkexec is
    installed, and one without a configuration file. *)
Definition viaPkexec : Sys World := start (machine false true (Some configured)).
Definition firstRun : Sys World := start (machine false true None).

(** A configuration file with a comment line and the key twice. *)
Definition twoKeysText : string :=
  "# teabag" ++ LF ++ "APPIMAGE_DIR=/opt/apps" ++ LF ++ "APPIMAGE_DIR=/ignored".
Definition twoKeys : Sys World := start (machine true true (Some twoKeysText)).

(** The answers of a session, ready to install [/tmp/App.bundle]. *)
Definition bundle : model :=
  set_appName "My App"
    (set_appImageDir "/home/u/Apps"
       (set_appImagePath "/tmp/App.bundle" (blank stepCategories))).

(** A bundle that already lies in [old] under the working directory,
    with [old] given as a relative storage directory. *)
Definition inOld : Sys World :=
  start (withContents
           (("/home/u/Downloads/old/App.AppImage", "ELF")
              :: contents (machine true true (Some configured)))
           (machine true true (Some configured))).

Definition relativeBundle : model :=
  set_appName "My App"
    (set_appImageDir "old"
       (set_appImagePath "/home/u/Downloads/old/App.AppImage"
          (blank stepCategories))).

(** The browser as the program starts it without an argument, then with
    the cursor on the first bundle, then searching for [p], then
    searching for [z], which matches nothing. *)
Definition browsing : model :=
  Eval vm_compute in valueOf (blank stepFileBrowser) (initialModel "") denied.
Definition onBundle : model :=
  Eval vm_compute in
    valueOf (blank stepFileBrowser) (keys ["down"] browsing) denied.
Definition searching : model :=
  Eval vm_compute in
    valueOf (blank stepFileBrowser) (keys ["/"; "p"] browsing) denied.
Definition noMatch : model :=
  Eval vm_compute in
    valueOf (blank stepFileBrowser) (keys ["/"; "z"] browsing) denied.

End Sample.

(** ** Vocabulary of the statements *)

(** The metadata as the specification words it: the keys Name, Exec, Type
    (the literal [Application]) and Categories, then Comment when the
    description is not empty, then Icon when the icon path is not empty. *)
Definition metadataFields (appName destFile categories description iconPath
  : string) : list (string * string) :=
  ([("Name", appName); ("Exec", destFile); ("Type", "Application");
    ("Categories", categories)]
   ++ (if String.eqb description "" then [] else [("Comment", description)])
   ++ (if String.eqb iconPath "" then [] else [("Icon", iconPath)]))%list.

(** A key=value block, one field per line. *)
Fixpoint renderFields (fields : list (string * string)) : string :=
  match fields with
  | [] => ""
  | (k, v) :: rest => k ++ "=" ++ v ++ LF ++ renderFields rest
  end.

(** The value of a step, as [iota] numbers the constants. *)
Definition stepNum (st : step) : Z :=
  match st with
  | stepFileBrowser => 0
  | stepAppImageDir => 1
  | stepAppName => 2
  | stepDescription => 3
  | stepIcon => 4
  | stepIconBrowser => 5
  | stepCategories => 6
  | stepProcessing => 7
  | stepComplete => 8
  | stepError => 9
  end.

(** The steps in which [Update] edits [input]. *)
Definition isTextStep (st : step) : bool :=
  match st with
  | stepAppImageDir | stepAppName | stepDescription | stepIcon
  | stepCategories => true
  | _ => false
  end.

(** Whether the byte [c] occurs in [s], and the first and last byte. *)
Fixpoint hasByte (c : ascii) (s : string) : bool :=
  match s with
  | EmptyString => false
  | String d s' => Ascii.eqb c d || hasByte c s'
  end.

Definition firstByte (s : string) : option ascii :=
  match s with
  | EmptyString => None
  | String c _ => Some c
  end.

Fixpoint lastByte (s : string) : option ascii :=
  match s with
  | EmptyString => None
  | String c EmptyString => Some c
  | String _ s' => lastByte s'
  end.

(** Whether a call is a look-up on the path. *)
Definition isLookPath (c : Call) : bool :=
  match c with
  | LookPath _ => true
  | _ => false
  end.

(** The recorded calls [evs] carry out [plan] in order and stop at the
    first call that fails: each recorded call is the next of the plan, a
    call that returned nil is followed by the rest of the plan, and a call
    that failed is the last one. *)
Fixpoint followsPlan (plan : list Call) (evs : list Event) : Prop :=
  match plan, evs with
  | [], [] => True
  | c :: plan', ev :: evs' =>
      call ev = c
      /\ match result ev with
         | None => followsPlan plan' evs'
         | Some _ => evs' = []
         end
  | _, _ => False
  end.

(** The text [saveConfig] writes for a directory. *)
Definition configText (appImageDir : string) : string :=
  "APPIMAGE_DIR=" ++ String DQUOTE appImageDir ++ String DQUOTE LF.

Section Vocabulary.
Context {World : Type} `{OS World} `{Lib}.

(** Whether the browser lists an entry of [os.ReadDir], and the item it
    lists for it. *)
Definition keepEntry (iconMode : bool) (entry : DirEntry) : bool :=
  IsDir entry
  || (if iconMode then isImageFile (Name entry) else isAppImage (Name entry)).

Definition entryOf (dir : string) (entry : DirEntry) : fileEntry :=
  {| name := Name entry; path := filepath.Join [dir; Name entry];
     isDir := IsDir entry |}.

(** Deliver keys to [Update] one after the other, dropping the commands. *)
Fixpoint feed (ks : list string) (m : model) : M World model :=
  match ks with
  | [] => ret m
  | k :: rest => '(m', _) <- Update m (KeyMsg k) ;; feed rest m'
  end.

(** The listing of a directory: the parent entry, then what each entry of
    [os.ReadDir] adds, in its order. *)
Definition listing (iconMode : bool) (dir : string) (entries : list DirEntry)
  : list fileEntry :=
  parentEntry dir ++ flat_map (listEntry iconMode dir) entries.

(** The browser fields as [loadDirectoryWithFilter] first resets them. *)
Definition resetBrowser (m : model) : model :=
  set_fuzzyMatches [] (set_searchQuery ""
    (set_searchMode false (set_cursor 0 (set_files [] (set_allFiles [] m))))).

(** The cursor is a valid index of the visible list, or 0 when the list
    is empty. *)
Definition cursorOK (m : model) : Prop :=
  match files m with
  | [] => cursor m = 0
  | _ :: _ => 0 <= cursor m < llen (files m)
  end.

(** The matcher only reports positions of the labels it was given. *)
Definition matcherInRange : Prop :=
  forall (q : string) (labels : list string) (mt : Match),
    In mt (fuzzy_FindFrom q labels) -> 0 <= Index mt < llen labels.

(** The calls recorded between two states of a run. *)
Definition newEvents (s s' : Sys World) : list Event :=
  skipn (List.length (trace s)) (trace s').

(** The message of the failure that asks for privileges. *)
Definition requiresPrivileges : Msg :=
  installCompleteMsg (Some (errorf_w privilegesText None)).

End Vocabulary.

(** ** Facts about strings and slices *)

Lemma append_assoc (a b c : string) : ((a ++ b) ++ c = a ++ (b ++ c))%string.
Proof. induction a as [|x a IH]; simpl; [reflexivity | now rewrite IH]. Qed.

Lemma append_nil_r (a : string) : (a ++ "" = a)%string.
Proof. induction a as [|x a IH]; simpl; [reflexivity | now rewrite IH]. Qed.

Lemma length_append (a b : string) :
  String.length (a ++ b) = (String.length a + String.length b)%nat.
Proof. induction a as [|x a IH]; simpl; [reflexivity | now rewrite IH]. Qed.

Lemma slice_from_append (a b : string) :
  slice_from (String.length a) (a ++ b) = b.
Proof. induction a as [|x a IH]; simpl; [now destruct b | exact IH]. Qed.

Lemma slice_from_length (n : nat) (s : string) :
  String.length (slice_from n s) = (String.length s - n)%nat.
Proof.
  revert s; induction n as [|n IH]; intros s; simpl; [lia |].
  destruct s as [|c s]; simpl; [reflexivity | apply IH].
Qed.

Lemma slice_to_from (n : nat) (s : string) :
  (slice_to n s ++ slice_from n s)%string = s.
Proof.
  revert s; induction n as [|n IH]; intros s; simpl; [reflexivity |].
  destruct s as [|c s]; simpl; [reflexivity | now rewrite IH].
Qed.

(** A string that has a suffix is something followed by it, and back. *)
Lemma HasSuffix_append (a suffix : string) :
  strings.HasSuffix (a ++ suffix) suffix = true.
Proof.
  unfold strings.HasSuffix. rewrite length_append.
  replace (String.length a + String.length suffix - String.length suffix)%nat
    with (String.length a) by lia.
  rewrite slice_from_append, String.eqb_refl, andb_true_r.
  apply Nat.leb_le; lia.
Qed.

Lemma HasSuffix_split (s suffix : string) :
  strings.HasSuffix s suffix = true -> exists a, s = (a ++ suffix)%string.
Proof.
  unfold strings.HasSuffix. intros Hs.
  apply andb_true_iff in Hs as [_ He]. apply String.eqb_eq in He.
  remember (String.length s - String.length suffix)%nat as k eqn:Hk.
  clear Hk. exists (slice_to k s).
  rewrite <- He. symmetry. apply slice_to_from.
Qed.

Lemma skipn_length_app {A} (l r : list A) : skipn (List.length l) (l ++ r) = r.
Proof. induction l as [|x l IH]; simpl; [reflexivity | exact IH]. Qed.

Lemma llen_nil_iff {A} (l : list A) : llen l = 0 <-> l = [].
Proof.
  unfold llen; destruct l; simpl; split; intros E; try reflexivity;
    try discriminate; lia.
Qed.

Lemma llen_nonneg {A} (l : list A) : 0 <= llen l.
Proof. unfold llen; lia. Qed.

Lemma index_in_range {A} (l : list A) (i : Z) :
  0 <= i < llen l -> exists a, index l i = Some a /\ In a l.
Proof.
  intros Hi. unfold index.
  replace ((0 <=? i) && (i <? llen l)) with true
    by (symmetry; apply andb_true_iff; split; [apply Z.leb_le | apply Z.ltb_lt]; lia).
  destruct (nth_error l (Z.to_nat i)) as [a|] eqn:E.
  - exists a; split; [reflexivity | eapply nth_error_In; eassumption].
  - apply nth_error_None in E. unfold llen in Hi. lia.
Qed.

Lemma index_Some_in {A} (l : list A) (i : Z) (a : A) :
  index l i = Some a -> In a l /\ 0 <= i < llen l.
Proof.
  unfold index. destruct ((0 <=? i) && (i <? llen l)) eqn:E; [| discriminate].
  apply andb_true_iff in E as [E1 E2].
  apply Z.leb_le in E1. apply Z.ltb_lt in E2.
  intros Hn; split; [eapply nth_error_In; eassumption | lia].
Qed.

(** ** The launcher metadata *)

(** The text of [install] is the header and the rendered fields. *)
Lemma desktopEntryText_render
    (appName destFile categories description iconPath : string) :
  desktopEntryText appName destFile categories description iconPath
  = ("[Desktop Entry]" ++ LF
     ++ renderFields
          (metadataFields appName destFile categories description iconPath))%string.
Proof.
  unfold desktopEntryText, metadataFields.
  destruct (String.eqb_spec description "") as [Ed|Ed];
    destruct (String.eqb_spec iconPath "") as [Ei|Ei]; unfold LF; simpl;
    repeat (rewrite append_assoc; simpl); reflexivity.
Qed.

(** C4: for every name, destination, categories, description and icon
    path, the text [install] synthesizes is the group header followed by
    the key=value block of [metadataFields]: Name, Exec, Type=Application,
    Categories, then a Comment line exactly when the description is not
    empty, then an Icon line exactly when the icon path is not empty. *)
Theorem desktopEntry_fields_in_order :
  forall appName destFile categories description iconPath : string,
    desktopEntryText appName destFile categories description iconPath
    = ("[Desktop Entry]" ++ LF
       ++ renderFields
            (metadataFields appName destFile categories description iconPath))%string
    /\ map fst (metadataFields appName destFile categories description iconPath)
       = (["Name"; "Exec"; "Type"; "Categories"]
          ++ (if String.eqb description "" then [] else ["Comment"])
          ++ (if String.eqb iconPath "" then [] else ["Icon"]))%list
    /\ (In "Comment"
          (map fst (metadataFields appName destFile categories description iconPath))
        <-> description <> "")
    /\ (In "Icon"
          (map fst (metadataFields appName destFile categories description iconPath))
        <-> iconPath <> "").
Proof.
  intros n d c desc icon.
  split; [apply desktopEntryText_render |].
  unfold metadataFields.
  destruct (String.eqb_spec desc "") as [Ed|Ed];
    destruct (String.eqb_spec icon "") as [Ei|Ei]; simpl.
  all: split; [reflexivity |].
  all: split; split; intros Hx;
    try congruence;
    try (repeat (destruct Hx as [Hx|Hx]; try discriminate Hx); contradiction);
    try (simpl; tauto).
Qed.

(** ** Properties of the program *)

Section Properties.
Context {World : Type} `{OS World} `{Lib}.

#[local] Abbreviation IO := (M World).

(** Paths and texts stay folded while a run is simplified. *)
#[local] Arguments filepath.Join : simpl never.
#[local] Arguments filepath.Clean : simpl never.
#[local] Arguments filepath.Base : simpl never.
#[local] Arguments filepath.Dir : simpl never.
#[local] Arguments desktopEntryText : simpl never.
#[local] Arguments desktopFilenameOf : simpl never.
#[local] Arguments destFileOf : simpl never.

(** *** Directory listings *)

Lemma listing_fold (iconMode : bool) (entries : list DirEntry) (m : model) :
  fold_left
    (fun m entry =>
       set_allFiles (allFiles m ++ listEntry iconMode (currentDir m) entry) m)
    entries m
  = set_allFiles
      (allFiles m ++ flat_map (listEntry iconMode (currentDir m)) entries) m.
Proof.
  revert m; induction entries as [|entry entries IH]; intros m; simpl.
  - destruct m; unfold set_allFiles; simpl. now rewrite app_nil_r.
  - rewrite IH. simpl. unfold set_allFiles; simpl. now rewrite <- app_assoc.
Qed.

Lemma allFiles_set_allFiles (v : list fileEntry) (x : model) :
  allFiles (set_allFiles v x) = v.
Proof. reflexivity. Qed.

Lemma currentDir_set_allFiles (v : list fileEntry) (x : model) :
  currentDir (set_allFiles v x) = currentDir x.
Proof. reflexivity. Qed.

Lemma set_allFiles_twice (v w : list fileEntry) (x : model) :
  set_allFiles v (set_allFiles w x) = set_allFiles v x.
Proof. reflexivity. Qed.

Lemma resetBrowser_allFiles (m : model) : allFiles (resetBrowser m) = [].
Proof. reflexivity. Qed.

Lemma resetBrowser_currentDir (m : model) :
  currentDir (resetBrowser m) = currentDir m.
Proof. reflexivity. Qed.

(** [loadDirectoryWithFilter] always returns, leaves the world alone, and
    yields either the listing or an empty browser with the error set. *)
Lemma loadDirectoryWithFilter_run (iconMode : bool) (m : model) (s : Sys World) :
  loadDirectoryWithFilter iconMode m s
  = Some
      (match os_ReadDir (world s) (currentDir m) with
       | (entries, None) =>
           let l := listing iconMode (currentDir m) entries in
           set_files l (set_allFiles l (resetBrowser m))
       | (_, Some e) =>
           set_error ("Failed to read directory: " ++ Error e) (resetBrowser m)
       end, s).
Proof.
  unfold loadDirectoryWithFilter. cbv zeta.
  change (set_fuzzyMatches [] (set_searchQuery ""
            (set_searchMode false (set_cursor 0
               (set_files [] (set_allFiles [] m))))))
    with (resetBrowser m).
  pose proof (resetBrowser_allFiles m) as Hall.
  pose proof (resetBrowser_currentDir m) as Hdir.
  remember (resetBrowser m) as R eqn:HR. clear HR.
  unfold bind, ask, ret. rewrite Hdir.
  destruct (os_ReadDir (world s) (currentDir m)) as [entries [e|]].
  - reflexivity.
  - rewrite listing_fold.
    rewrite allFiles_set_allFiles, currentDir_set_allFiles, set_allFiles_twice.
    rewrite allFiles_set_allFiles, Hall, Hdir. reflexivity.
Qed.

Lemma listEntry_cases (iconMode : bool) (dir : string) (entry : DirEntry)
    (e : fileEntry) :
  In e (listEntry iconMode dir entry) ->
  name e = Name entry
  /\ (isDir e = false ->
      if iconMode then isImageFile (name e) = true
      else isAppImage (name e) = true).
Proof.
  unfold listEntry.
  destruct (IsDir entry).
  - intros [<-|[]]; simpl; split; [reflexivity | discriminate].
  - destruct iconMode; simpl.
    + destruct (isImageFile (Name entry)) eqn:E; simpl; [| intros []].
      intros [<-|[]]; simpl; auto.
    + destruct (isAppImage (Name entry)) eqn:E; simpl; [| intros []].
      intros [<-|[]]; simpl; auto.
Qed.

Lemma isImageFile_ext (n : string) :
  isImageFile n = true ->
  exists ext, In ext extensions
              /\ strings.HasSuffix (strings.ToLower n) ext = true.
Proof.
  unfold isImageFile. intros E. apply existsb_exists in E. exact E.
Qed.

(** C6: every listing the browser produces, with either filter, equals
    [allFiles]; an entry named [..] can only be its first one and only
    away from the root [/]; when the directory was read away from the
    root, the first entry is the parent entry; and every entry that is
    not a directory has a name that passes the active filter: a
    lower-cased name ending in [.appimage], or in one of the image
    extensions.  [os.ReadDir] is taken not to report an entry named
    [..], as its contract says. *)
Theorem listing_parent_first_and_filtered :
  forall (iconMode : bool) (m : model) (s : Sys World),
    (forall entry,
        In entry (fst (os_ReadDir (world s) (currentDir m))) ->
        Name entry <> "..") ->
    exists m',
      loadDirectoryWithFilter iconMode m s = Some (m', s)
      /\ files m' = allFiles m'
      /\ (forall i e, nth_error (files m') i = Some e -> name e = ".." ->
                      i = 0%nat /\ currentDir m <> "/")
      /\ (snd (os_ReadDir (world s) (currentDir m)) = None ->
          currentDir m <> "/" ->
          exists rest,
            files m'
            = {| name := ".."; path := filepath.Dir (currentDir m);
                 isDir := true |} :: rest)
      /\ (forall e, In e (files m') -> isDir e = false ->
            if iconMode
            then exists ext,
                In ext extensions
                /\ strings.HasSuffix (strings.ToLower (name e)) ext = true
            else strings.HasSuffix (strings.ToLower (name e)) ".appimage"
                 = true).
Proof.
  intros iconMode m s Hdots.
  eexists. split; [apply loadDirectoryWithFilter_run |].
  destruct (os_ReadDir (world s) (currentDir m)) as [entries [err|]]; simpl in *.
  - split; [reflexivity |]. split; [| split].
    + intros [|i] e Hn; simpl in Hn; discriminate.
    + discriminate.
    + intros e [].
  - assert (Hflat : forall e,
               In e (flat_map (listEntry iconMode (currentDir m)) entries) ->
               name e <> ".."
               /\ (isDir e = false ->
                   if iconMode then isImageFile (name e) = true
                   else isAppImage (name e) = true)).
    { intros e He. apply in_flat_map in He as [entry [Hin He]].
      apply listEntry_cases in He as [Hname Hfile].
      split; [rewrite Hname; auto | exact Hfile]. }
    split; [reflexivity |]. unfold listing, parentEntry.
    destruct (String.eqb_spec (currentDir m) "/") as [Eroot|Eroot]; simpl.
    + split; [| split].
      * intros i e Hn Hname. apply nth_error_In in Hn.
        apply Hflat in Hn as [Hn _]. contradiction.
      * intros _ Hne. contradiction.
      * intros e He Hf. apply Hflat in He as [_ He]. specialize (He Hf).
        destruct iconMode; [now apply isImageFile_ext | exact He].
    + split; [| split].
      * intros [|i] e Hn Hname; [now split |].
        simpl in Hn. apply nth_error_In in Hn.
        apply Hflat in Hn as [Hn _]. contradiction.
      * intros _ _. eexists. reflexivity.
      * intros e [<-|He] Hf; [discriminate |].
        apply Hflat in He as [_ He]. specialize (He Hf).
        destruct iconMode; [now apply isImageFile_ext | exact He].
Qed.

(** *** Entering a step *)

(** C10: pressing Enter on the Icon step with the input [b] or [B] moves
    to the icon browser, sets the current directory to what
    [os.UserHomeDir] returns, empties the input and lists that directory
    with the image filter; the result is the same whatever directory the
    browser was in before. *)
Theorem icon_browse_starts_at_home :
  forall (m : model) (s : Sys World),
    currentStep m = stepIcon ->
    input m = "b" \/ input m = "B" ->
    let homeDir := fst (os_UserHomeDir (world s)) in
    exists m',
      Update m (KeyMsg "enter") s = Some ((m', CmdNil), s)
      /\ loadDirectoryWithFilter true
           (set_input "" (set_currentStep stepIconBrowser
              (set_currentDir homeDir m))) s = Some (m', s)
      /\ currentStep m' = stepIconBrowser
      /\ currentDir m' = homeDir
      /\ input m' = ""
      /\ (forall entries,
            os_ReadDir (world s) homeDir = (entries, None) ->
            files m' = listing true homeDir entries)
      /\ (forall d : string,
            Update (set_currentDir d m) (KeyMsg "enter") s
            = Some ((m', CmdNil), s)).
Proof.
  intros m s Hstep Hin homeDir.
  assert (Hb : String.eqb (input m) "b" || String.eqb (input m) "B" = true).
  { destruct Hin as [-> | ->]; reflexivity. }
  assert (Henter : forall d,
             Update (set_currentDir d m) (KeyMsg "enter") s
             = bind (loadDirectoryWithFilter true
                       (set_input "" (set_currentStep stepIconBrowser
                          (set_currentDir homeDir m))))
                 (fun m' => ret (m', CmdNil)) s).
  { intros d. unfold Update, isFileBrowserStep, handleEnter. simpl.
    rewrite Hstep. simpl. rewrite Hb.
    unfold bind, ask, loadIconDirectory. simpl. subst homeDir.
    destruct (os_UserHomeDir (world s)) as [h e]. reflexivity. }
  assert (Hsame : set_currentDir (currentDir m) m = m) by (now destruct m).
  pose proof (Henter (currentDir m)) as Hm. rewrite Hsame in Hm.
  unfold bind in Henter, Hm.
  rewrite loadDirectoryWithFilter_run in Henter, Hm. simpl in Henter, Hm.
  eexists. split; [exact Hm |].
  split; [apply loadDirectoryWithFilter_run |].
  destruct (os_ReadDir (world s) homeDir) as [entries [e|]] eqn:Er; simpl.
  - repeat split; try reflexivity; try exact Henter.
    intros entries' E; discriminate E.
  - repeat split; try reflexivity; try exact Henter.
    intros entries' E; injection E as <-; reflexivity.
Qed.

Lemma findAppImageDir_absent (lines : list string) :
  (forall line, In line lines ->
                strings.HasPrefix line "APPIMAGE_DIR=" = false) ->
  findAppImageDir lines = None.
Proof.
  induction lines as [|line lines IH]; intros Hno; simpl; [reflexivity |].
  unfold strings.CutPrefix. rewrite (Hno line (or_introl eq_refl)).
  apply IH. intros l Hl. apply Hno. now right.
Qed.

(** C9: when Enter selects a bundle file (not a directory) in the bundle
    browser, the configuration file is not reported missing, it can be
    read, and no line of it starts with the key [APPIMAGE_DIR=], the
    wizard goes to the Error step with a non-empty message, and not to the
    directory or name step. *)
Theorem unparsable_config_is_error :
  forall (m : model) (s : Sys World) (selected : fileEntry) (data : string),
    currentStep m = stepFileBrowser ->
    index (files m) (cursor m) = Some selected ->
    isDir selected = false ->
    os_IsNotExist (os_Stat (world s) (configPath m)) = false ->
    os_ReadFile (world s) (configPath m) = (data, None) ->
    (forall line, In line (strings.Split data (ascii_of_nat 10)) ->
                  strings.HasPrefix line "APPIMAGE_DIR=" = false) ->
    exists m',
      Update m (KeyMsg "enter") s = Some ((m', CmdNil), s)
      /\ currentStep m' = stepError
      /\ error m' = "Failed to load config: APPIMAGE_DIR not found in config"
      /\ error m' <> ""
      /\ appImagePath m' = path selected.
Proof.
  intros m s selected data Hstep Hsel Hfile Hstat Hread Hkey.
  assert (Hlen : (llen (files m) =? 0) = false).
  { apply index_Some_in in Hsel as [_ Hr]. apply Z.eqb_neq. lia. }
  assert (Henter : forall m1,
             currentStep m1 = stepFileBrowser -> files m1 = files m ->
             cursor m1 = cursor m -> configPath m1 = configPath m ->
             exists m',
               handleEnter m1 s = Some ((m', CmdNil), s)
               /\ currentStep m' = stepError
               /\ error m'
                  = "Failed to load config: APPIMAGE_DIR not found in config"
               /\ error m' <> ""
               /\ appImagePath m' = path selected).
  { intros m1 H1 H2 H3 H4. unfold handleEnter. rewrite H1, H2, H3, Hlen.
    unfold bind, lift, ask, ret, loadConfig. rewrite Hsel. simpl.
    rewrite Hfile. unfold bind, ask, ret. simpl.
    destruct (os_UserHomeDir (world s)) as [homeDir e].
    rewrite H4, Hstat, Hread. rewrite (findAppImageDir_absent _ Hkey). simpl.
    eexists. split; [reflexivity |]. simpl.
    repeat split; try reflexivity. discriminate. }
  unfold Update, isFileBrowserStep. rewrite Hstep.
  unfold handleFileBrowserKeys. destruct (searchMode m) eqn:Esearch; simpl.
  - apply Henter; reflexivity || assumption.
  - apply Henter; reflexivity || assumption.
Qed.

(** *** The installation pipeline *)

Ltac io_unfold :=
  unfold pipeline, install, runCmd, bind, ask, ret, lift,
    Rename_, Chmod_, WriteFile_, Run_, MkdirAll_, LookPath_, sys.

(** One call of the pipeline, split by its result. *)
Ltac io_step :=
  match goal with
  | |- context [Abs ?w ?p] =>
      destruct (Abs w p) as [? [?|]] eqn:?
  | |- context [if negb (String.eqb ?a ?b) then _ else _] =>
      destruct (String.eqb_spec a b)
  | |- context [os_Rename ?w ?a ?b] =>
      destruct (os_Rename w a b) as [[?|] ?] eqn:?
  | |- context [os_Chmod ?w ?a ?b] =>
      destruct (os_Chmod w a b) as [[?|] ?] eqn:?
  | |- context [os_WriteFile ?w ?a ?b ?c] =>
      destruct (os_WriteFile w a b c) as [[?|] ?] eqn:?
  | |- context [exec_Run ?w ?a] =>
      destruct (exec_Run w a) as [[?|] ?] eqn:?
  | |- context [exec_LookPath ?w ?a] =>
      destruct (exec_LookPath w a) as [? [?|]] eqn:?
  end; simpl.

(** [install] always returns, and changes no field of the model but
    [desktopFilePath]. *)
Lemma install_returns (m : model) (s : Sys World) :
  exists m' cmd s',
    install m s = Some ((m', cmd), s')
    /\ (m' = m
        \/ m' = set_desktopFilePath
                  (filepath.Join [desktopDir; desktopFilenameOf (appName m)]) m).
Proof.
  io_unfold. repeat io_step;
    do 3 eexists; (split; [reflexivity |]); auto.
Qed.

(** C5: confirming the Categories step stores [Utility;] for an empty
    input, the input followed by one [;] when it does not end in [;], and
    the input itself when it already ends in [;]; the wizard is then at
    the Processing step with the input emptied. *)
Theorem categories_normalized_on_confirm :
  forall (m : model) (s : Sys World),
    currentStep m = stepCategories ->
    exists m' cmd s',
      Update m (KeyMsg "enter") s = Some ((m', cmd), s')
      /\ currentStep m' = stepProcessing
      /\ input m' = ""
      /\ strings.HasSuffix (categories m') ";" = true
      /\ (input m = "" -> categories m' = "Utility;")
      /\ (input m <> "" -> strings.HasSuffix (input m) ";" = false ->
          categories m' = (input m ++ ";")%string)
      /\ (strings.HasSuffix (input m) ";" = true ->
          categories m' = input m).
Proof.
  intros m s Hstep.
  unfold Update, isFileBrowserStep, handleEnter. rewrite Hstep. simpl.
  match goal with
  | |- context [install ?m0 s] =>
      destruct (install_returns m0 s) as (m' & cmd & s' & Hrun & Hm');
      exists m', cmd, s'; split; [exact Hrun |]
  end.
  assert (Hfields :
            currentStep m' = stepProcessing /\ input m' = ""
            /\ categories m'
               = (let i := if String.eqb (input m) "" then "Utility;"
                           else input m in
                  if negb (strings.HasSuffix i ";") then i ++ ";" else i)%string).
  { destruct Hm' as [-> | ->]; simpl;
      destruct (String.eqb (input m) ""); simpl;
      try destruct (strings.HasSuffix (input m) ";"); simpl; auto. }
  destruct Hfields as (H1 & H2 & H3). rewrite H3. clear Hrun Hm' H3.
  repeat split; try assumption.
  - destruct (String.eqb (input m) ""); simpl; [reflexivity |].
    destruct (strings.HasSuffix (input m) ";") eqn:E; simpl;
      [exact E | apply (HasSuffix_append (input m) ";")].
  - intros ->. reflexivity.
  - intros Hne Hs. apply String.eqb_neq in Hne. rewrite Hne. simpl.
    now rewrite Hs.
  - intros Hs. destruct (String.eqb_spec (input m) "") as [E|E].
    + rewrite E in Hs. discriminate Hs.
    + simpl. now rewrite Hs.
Qed.

Ltac trace_norm :=
  unfold newEvents; simpl; repeat rewrite <- app_assoc; simpl;
  try rewrite skipn_length_app; try rewrite skipn_all.

Ltac trace_norm_in Hyp :=
  unfold newEvents in Hyp; simpl in Hyp; repeat rewrite <- app_assoc in Hyp;
  simpl in Hyp;
  try rewrite skipn_length_app in Hyp; try rewrite skipn_all in Hyp.

(** No event is in an empty list, and an event is one of a listed few. *)
Ltac in_events Hyp :=
  simpl in Hyp;
  repeat match type of Hyp with
         | _ \/ _ => destruct Hyp as [Hyp|Hyp]
         | False => destruct Hyp
         | _ = _ => try discriminate Hyp
         end.

(** C1, as the code has it: the pipeline always reports one message, and
    in every run whose unprivileged [cp] into the registration directory
    returned nil that message is the failure asking for administrator
    privileges, which moves the wizard to the Error step; the run does
    not report success. *)
Theorem unprivileged_copy_success_reports_failure :
  forall (m : model) (s : Sys World),
    exists msg s',
      pipeline m s = Some (Some msg, s')
      /\ (forall tmp dst,
            In (ok (Run ["cp"; tmp; dst])) (newEvents s s') ->
            msg = requiresPrivileges
            /\ msg <> installCompleteMsg None
            /\ forall wizard,
                exists wizard',
                  Update wizard msg s' = Some ((wizard', CmdNil), s')
                  /\ currentStep wizard' = stepError
                  /\ strings.HasPrefix (error wizard')
                       "Installation requires administrator privileges." = true).
Proof.
  intros m s. io_unfold. repeat io_step.
  all: do 2 eexists; (split; [reflexivity |]).
  all: intros tmp' dst' Hcp; trace_norm_in Hcp; in_events Hcp.
  all: split; [reflexivity |]; split; [discriminate |].
  all: intros wizard; eexists; split; [reflexivity |]; split; reflexivity.
Qed.


(** C3, as the code has it: in every run of [install] whose source path
    resolves, with [destFile] the configured directory joined with the
    base name of the resolved source, the calls the run makes (look-ups
    aside) are, in this order and up to the first that fails: the rename
    of the resolved source to [destFile], made exactly when the resolved
    source differs from [destFile] as computed (the destination is not
    made absolute); the chmod of [destFile]; the write of the metadata
    text, whose third line is [Exec=destFile], to a temp file named after
    the application (spaces replaced by hyphens, lower-cased, [.desktop]
    appended); and the copy of that file under the same name into the
    registration directory.  The name [My App] gives [my-app.desktop],
    and the bundle [/tmp/App.bundle] with the directory [/home/u/Apps]
    gives [/home/u/Apps/App.bundle]. *)
Theorem install_destination_and_names :
  forall (m : model) (s : Sys World) (absPath : string),
    Abs (world s) (appImagePath m) = (absPath, None) ->
    let destFile := filepath.Join [appImageDir m; filepath.Base absPath] in
    let desktopFilename :=
      (strings.ToLower (strings.ReplaceAll (appName m) " "%char "-")
       ++ ".desktop")%string in
    let text :=
      desktopEntryText (appName m) destFile (categories m) (description m)
        (iconPath m) in
    exists m' cmd s' tmpDir,
      install m s = Some ((m', cmd), s')
      /\ followsPlan
           ((if String.eqb absPath destFile then []
             else [Rename absPath destFile])
            ++ [Chmod destFile perm0755;
                WriteFile (filepath.Join [tmpDir; desktopFilename]) text
                  perm0644;
                Run ["cp"; filepath.Join [tmpDir; desktopFilename];
                     filepath.Join ["/usr/share/applications";
                                    desktopFilename]]])%list
           (filter (fun ev => negb (isLookPath (call ev))) (newEvents s s'))
      /\ (exists rest,
             text = ("[Desktop Entry]" ++ LF ++ "Name=" ++ appName m ++ LF
                     ++ "Exec=" ++ destFile ++ LF ++ rest)%string)
      /\ ((exists r, In {| call := Rename absPath destFile; result := r |}
                        (newEvents s s'))
          <-> absPath <> destFile)
      /\ (strings.ToLower (strings.ReplaceAll "My App" " "%char "-")
          ++ ".desktop")%string = "my-app.desktop"
      /\ filepath.Join ["/home/u/Apps"; filepath.Base "/tmp/App.bundle"]
         = "/home/u/Apps/App.bundle".
Proof.
  intros m s absPath Habs destFile desktopFilename text.
  assert (Htext : exists rest,
             text = ("[Desktop Entry]" ++ LF ++ "Name=" ++ appName m ++ LF
                     ++ "Exec=" ++ destFile ++ LF ++ rest)%string).
  { subst text. rewrite desktopEntryText_render. unfold metadataFields, LF.
    simpl. eexists. reflexivity. }
  io_unfold. rewrite Habs. simpl.
  unfold destFileOf, desktopFilenameOf.
  fold destFile. fold desktopFilename. fold text.
  repeat io_step.
  all: do 4 eexists; (split; [reflexivity |]).
  all: split; [| split; [exact Htext | split; [| split; reflexivity]]].
  all: match goal with
       | |- _ <-> _ =>
           split;
           [ intros [r Hr]; trace_norm_in Hr; in_events Hr;
             first [assumption | contradiction]
           | intros Hne;
             first [ contradiction
                   | trace_norm; eexists; left; reflexivity ] ]
       | |- _ =>
           try match goal with
               | E : ?a = ?b |- context [String.eqb ?a ?b] =>
                   rewrite (proj2 (String.eqb_eq a b) E)
               | N : ?a <> ?b |- context [String.eqb ?a ?b] =>
                   rewrite (proj2 (String.eqb_neq a b) N)
               end;
           trace_norm; simpl; repeat split; reflexivity
       end.
  Unshelve. all: exact "".
Qed.

(** *** The browser *)

Lemma cursorOK_zero (m : model) : cursor m = 0 -> cursorOK m.
Proof.
  unfold cursorOK. intros E. destruct (files m) as [|f fs]; [exact E |].
  rewrite E. unfold llen. simpl. lia.
Qed.

Lemma cursorOK_nonneg (m : model) : cursorOK m -> 0 <= cursor m.
Proof. unfold cursorOK. destruct (files m); lia. Qed.

Lemma cursorOK_range (m : model) :
  files m <> [] -> cursorOK m -> 0 <= cursor m < llen (files m).
Proof. unfold cursorOK. destruct (files m); [congruence | auto]. Qed.

Lemma cursorOK_same (m m' : model) :
  files m' = files m -> cursor m' = cursor m -> cursorOK m -> cursorOK m'.
Proof. unfold cursorOK. intros -> ->. auto. Qed.

Lemma cursorUp_ok (m : model) : cursorOK m -> cursorOK (cursorUp m).
Proof.
  unfold cursorUp, cursorOK. destruct (cursor m >? 0) eqn:E; [| auto].
  simpl. apply Z.gtb_lt in E. destruct (files m); lia.
Qed.

Lemma cursorDown_ok (m : model) : cursorOK m -> cursorOK (cursorDown m).
Proof.
  unfold cursorDown, cursorOK.
  destruct (cursor m <? llen (files m) - 1) eqn:E; [| auto].
  simpl. apply Z.ltb_lt in E.
  destruct (files m) as [|f fs]; [unfold llen in E; simpl in E; lia | lia].
Qed.

Lemma load_cursorOK (iconMode : bool) (m : model) (s : Sys World) :
  exists m',
    loadDirectoryWithFilter iconMode m s = Some (m', s) /\ cursorOK m'.
Proof.
  eexists. split; [apply loadDirectoryWithFilter_run |].
  apply cursorOK_zero.
  destruct (os_ReadDir (world s) (currentDir m)) as [entries [e|]]; reflexivity.
Qed.

(** With positions in range, the loop of [applyFuzzySearch] does not
    panic and yields one entry per match. *)
Lemma pickMatches_in_range (all : list fileEntry) (matches : list Match) :
  (forall mt, In mt matches -> 0 <= Index mt < llen all) ->
  exists fs, pickMatches all matches = Some fs
             /\ List.length fs = List.length matches.
Proof.
  induction matches as [|mt matches IH]; intros Hr; simpl.
  - exists []. auto.
  - destruct (index_in_range all (Index mt)) as (e & -> & _).
    { apply Hr. now left. }
    destruct IH as (fs & -> & Hlen).
    { intros mt' Hin. apply Hr. now right. }
    exists (e :: fs). simpl. auto.
Qed.

Lemma applyFuzzySearch_ok (m : model) :
  matcherInRange -> 0 <= cursor m ->
  exists m',
    applyFuzzySearch m = Some m' /\ cursorOK m'
    /\ allFiles m' = allFiles m
    /\ (searchQuery m = "" -> files m' = allFiles m /\ cursor m' = 0).
Proof.
  intros Hrange Hc. unfold applyFuzzySearch.
  destruct (String.eqb_spec (searchQuery m) "") as [Eq|Eq].
  - eexists. split; [reflexivity |]. split; [now apply cursorOK_zero |].
    simpl. auto.
  - simpl.
    destruct (pickMatches_in_range (allFiles m)
                (fuzzy_FindFrom (searchQuery m) (map name (allFiles m))))
      as (fs & -> & Hlen).
    { intros mt Hin. apply Hrange in Hin. unfold llen in *.
      rewrite length_map in Hin. exact Hin. }
    simpl. destruct (cursor m >=? llen fs) eqn:E.
    + eexists. split; [reflexivity |]. split; [| split; [reflexivity |]].
      * unfold cursorOK. simpl. destruct fs as [|f fs]; [reflexivity |].
        unfold llen. cbn [List.length]. lia.
      * intros Eq'. contradiction.
    + eexists. split; [reflexivity |]. split; [| split; [reflexivity |]].
      * unfold cursorOK. simpl. rewrite Z.geb_leb in E. apply Z.leb_gt in E.
        destruct fs as [|f fs]; [unfold llen in E; simpl in E; lia | lia].
      * intros Eq'. contradiction.
Qed.

(** Enter in a browser step: no panic, no write, the cursor stays valid,
    and nothing happens on an empty list. *)
Lemma handleEnter_browser (m : model) (s : Sys World) :
  isFileBrowserStep m = true -> cursorOK m ->
  exists m' cmd,
    handleEnter m s = Some ((m', cmd), s) /\ cursorOK m'
    /\ (files m = [] -> m' = m /\ cmd = CmdNil).
Proof.
  intros Hstep Hok. unfold isFileBrowserStep in Hstep. unfold handleEnter.
  destruct (currentStep m) eqn:Estep; try discriminate Hstep.
  - destruct (Z.eqb_spec (llen (files m)) 0) as [E0|E0].
    + do 2 eexists. split; [reflexivity |]. auto.
    + assert (Hne : files m <> []) by (intros E; apply E0; now rewrite E).
      destruct (index_in_range (files m) (cursor m)) as (sel & Hsel & _);
        [now apply cursorOK_range |].
      unfold bind, lift. rewrite Hsel. simpl.
      destruct (isDir sel).
      * destruct (load_cursorOK false (set_currentDir (path sel) m) s)
          as (m' & Hload & Hok'). unfold loadDirectory. rewrite Hload.
        do 2 eexists. split; [reflexivity |]. split; [exact Hok' |].
        intros E; contradiction.
      * unfold ask, ret, loadConfig, bind, ask, ret. simpl.
        destruct (os_UserHomeDir (world s)) as [homeDir e].
        destruct (os_IsNotExist (os_Stat (world s) (configPath m))).
        -- do 2 eexists. split; [reflexivity |]. split; [exact Hok |].
           intros E; contradiction.
        -- destruct (os_ReadFile (world s) (configPath m)) as [data [e'|]];
             simpl;
             [| destruct (findAppImageDir (strings.Split data (ascii_of_nat 10)));
                simpl ].
           all: do 2 eexists; (split; [reflexivity |]);
             (split; [exact Hok | intros E; contradiction]).
  - destruct (Z.eqb_spec (llen (files m)) 0) as [E0|E0].
    + do 2 eexists. split; [reflexivity |]. auto.
    + assert (Hne : files m <> []) by (intros E; apply E0; now rewrite E).
      destruct (index_in_range (files m) (cursor m)) as (sel & Hsel & _);
        [now apply cursorOK_range |].
      unfold bind, lift. rewrite Hsel. simpl.
      destruct (isDir sel).
      * destruct (load_cursorOK true (set_currentDir (path sel) m) s)
          as (m' & Hload & Hok'). unfold loadIconDirectory. rewrite Hload.
        do 2 eexists. split; [reflexivity |]. split; [exact Hok' |].
        intros E; contradiction.
      * do 2 eexists. split; [reflexivity |]. split; [exact Hok |].
        intros E; contradiction.
Qed.

Lemma set_searchMode_same (m : model) (b : bool) :
  searchMode m = b -> set_searchMode b m = m.
Proof. intros <-. now destruct m. Qed.

Ltac key_case key k :=
  destruct (String.eqb_spec key k) as [->|?]; simpl.

(** A step that returns at once with a valid cursor and is not Enter. *)
Ltac plain_step :=
  do 2 eexists; split; [reflexivity |];
  split; [| split; intros Ek; first [discriminate Ek | contradiction]].

(** C7, as the code has it: in a browser step whose cursor is valid (an
    index of the visible list, or 0 when the list is empty), every key
    leaves the cursor valid, does not panic and writes nothing, and so
    does every directory load; Enter on an empty visible list changes
    nothing but the search mode, which it switches off, so it leaves the
    state unchanged when search was not active.  The matcher is taken to
    report positions of the labels it was given. *)
Theorem cursor_stays_in_range :
  forall (m : model) (key : string) (s : Sys World),
    matcherInRange ->
    isFileBrowserStep m = true ->
    cursorOK m ->
    (exists m' cmd,
        Update m (KeyMsg key) s = Some ((m', cmd), s)
        /\ cursorOK m'
        /\ (key = "enter" -> files m = [] ->
            m' = set_searchMode false m /\ cmd = CmdNil)
        /\ (key = "enter" -> files m = [] -> searchMode m = false -> m' = m))
    /\ (forall iconMode,
           exists m',
             loadDirectoryWithFilter iconMode m s = Some (m', s)
             /\ cursorOK m').
Proof.
  intros m key s Hrange Hstep Hok.
  split; [| intros iconMode; apply load_cursorOK].
  pose proof (cursorOK_nonneg m Hok) as Hc.
  unfold Update. rewrite Hstep. unfold handleFileBrowserKeys.
  destruct (searchMode m) eqn:Esearch.
  - key_case key "ctrl+c"; [plain_step; exact Hok |].
    key_case key "esc"; [plain_step; now apply cursorOK_zero |].
    key_case key "enter".
    { destruct (handleEnter_browser (set_searchMode false m) s)
        as (m' & cmd & Hrun & Hok' & Hempty);
        [exact Hstep | exact Hok |].
      exists m', cmd. split; [exact Hrun |]. split; [exact Hok' |].
      split; [intros _ E; now apply Hempty |].
      intros _ _ E; discriminate E. }
    key_case key "backspace".
    { destruct (len (searchQuery m) >? 0).
      - destruct (applyFuzzySearch_ok
                    (set_searchQuery (dropLast (searchQuery m)) m) Hrange Hc)
          as (m' & Hrun & Hok' & _).
        unfold bind, lift. rewrite Hrun. simpl.
        plain_step; exact Hok'.
      - plain_step; exact Hok. }
    key_case key "up"; [plain_step; now apply cursorUp_ok |].
    key_case key "down"; [plain_step; now apply cursorDown_ok |].
    destruct (len key =? 1).
    + destruct (applyFuzzySearch_ok
                  (set_searchQuery (searchQuery m ++ key) m) Hrange Hc)
        as (m' & Hrun & Hok' & _).
      unfold bind, lift. rewrite Hrun. simpl.
      plain_step; exact Hok'.
    + plain_step; exact Hok.
  - key_case key "ctrl+c"; [plain_step; exact Hok |].
    key_case key "esc"; [plain_step; exact Hok |].
    key_case key "/"; [plain_step; exact Hok |].
    key_case key "up"; [plain_step; now apply cursorUp_ok |].
    key_case key "down"; [plain_step; now apply cursorDown_ok |].
    key_case key "k"; [plain_step; now apply cursorUp_ok |].
    key_case key "j"; [plain_step; now apply cursorDown_ok |].
    key_case key "enter".
    { destruct (handleEnter_browser m s Hstep Hok)
        as (m' & cmd & Hrun & Hok' & Hempty).
      exists m', cmd. split; [exact Hrun |]. split; [exact Hok' |].
      split.
      - intros _ E. rewrite (set_searchMode_same m false Esearch).
        now apply Hempty.
      - intros _ E _. now apply Hempty. }
    key_case key "backspace".
    { destruct (String.eqb (currentDir m) "/"); simpl;
        [plain_step; exact Hok |].
      unfold isFileBrowserStep in Hstep.
      destruct (currentStep m) eqn:Estep; try discriminate Hstep.
      - destruct (load_cursorOK false
                    (set_currentDir (filepath.Dir (currentDir m)) m) s)
          as (m' & Hrun & Hok').
        unfold bind, loadDirectory. simpl. rewrite Hrun. simpl.
        plain_step; exact Hok'.
      - destruct (load_cursorOK true
                    (set_currentDir (filepath.Dir (currentDir m)) m) s)
          as (m' & Hrun & Hok').
        unfold bind, loadIconDirectory. simpl. rewrite Hrun. simpl.
        plain_step; exact Hok'. }
    plain_step; exact Hok.
Qed.

(** A one-byte key is none of the named keys. *)
Lemma single_byte_key (c : ascii) (k : string) :
  (1 < String.length k)%nat -> String.eqb (String c "") k = false.
Proof.
  intros Hk. apply String.eqb_neq. intros E. rewrite <- E in Hk.
  simpl in Hk. lia.
Qed.

Lemma dropLast_single (q : string) :
  String.length q = 1%nat -> dropLast q = "" /\ (len q >? 0) = true.
Proof.
  destruct q as [|c [|d q]]; simpl; try discriminate. intros _.
  split; reflexivity.
Qed.

(** C8, as the code has it: in a browser step with search active, Esc
    leaves search mode with an empty query, and Backspace on a one-byte
    query leaves the query empty; in both cases the visible list becomes
    [allFiles], the unfiltered listing in its order, and the cursor
    becomes 0.  Typing a search character never changes [allFiles], so it
    still is the listing of the last directory load.  Enter also leaves
    search mode, but to select: on an empty filtered list it switches
    search mode off and keeps the empty list, the query and the cursor. *)
Theorem clearing_search_restores_listing :
  forall (m : model) (s : Sys World),
    isFileBrowserStep m = true ->
    searchMode m = true ->
    (exists m',
        Update m (KeyMsg "esc") s = Some ((m', CmdNil), s)
        /\ files m' = allFiles m /\ cursor m' = 0
        /\ allFiles m' = allFiles m
        /\ searchMode m' = false /\ searchQuery m' = "")
    /\ (String.length (searchQuery m) = 1%nat ->
        exists m',
          Update m (KeyMsg "backspace") s = Some ((m', CmdNil), s)
          /\ files m' = allFiles m /\ cursor m' = 0
          /\ allFiles m' = allFiles m
          /\ searchQuery m' = "")
    /\ (matcherInRange -> 0 <= cursor m ->
        forall key, len key = 1 ->
          exists m',
            Update m (KeyMsg key) s = Some ((m', CmdNil), s)
            /\ allFiles m' = allFiles m
            /\ searchQuery m' = (searchQuery m ++ key)%string)
    /\ (files m = [] ->
        Update m (KeyMsg "enter") s
        = Some ((set_searchMode false m, CmdNil), s)).
Proof.
  intros m s Hstep Hsearch.
  assert (Henter : files m = [] ->
                   handleEnter (set_searchMode false m) s
                   = Some ((set_searchMode false m, CmdNil), s)).
  { intros Hempty. unfold handleEnter. simpl.
    unfold isFileBrowserStep in Hstep.
    destruct (currentStep m); try discriminate Hstep;
      rewrite Hempty; reflexivity. }
  unfold Update. rewrite Hstep. unfold handleFileBrowserKeys. rewrite Hsearch.
  split; [| split; [| split; [| exact Henter]]].
  - simpl. eexists. split; [reflexivity |]. simpl. auto.
  - intros Hone. simpl.
    destruct (dropLast_single _ Hone) as [Hdrop Hpos]. rewrite Hpos, Hdrop.
    unfold bind, lift, applyFuzzySearch. simpl.
    eexists. split; [reflexivity |]. simpl. auto.
  - intros Hrange Hc key Hkey.
    assert (Hk : exists c, key = String c "").
    { unfold len in Hkey. destruct key as [|c [|d key]].
      - discriminate Hkey.
      - now exists c.
      - cbn [String.length] in Hkey. lia. }
    destruct Hk as [c ->].
    destruct (applyFuzzySearch_ok
                (set_searchQuery (searchQuery m ++ String c "") m) Hrange Hc)
      as (m' & Hrun & _ & Hall & _).
    assert (Hq : searchQuery m' = (searchQuery m ++ String c "")%string).
    { unfold applyFuzzySearch in Hrun. simpl in Hrun.
      destruct (String.eqb (searchQuery m ++ String c "") "");
        [injection Hrun as <-; reflexivity |].
      destruct (pickMatches _ _); [| discriminate Hrun].
      destruct (_ >=? _); injection Hrun as <-; reflexivity. }
    exists m'.
    repeat (rewrite single_byte_key by (simpl; lia)).
    unfold bind, lift. simpl. rewrite Hrun. simpl.
    split; [reflexivity | split; [exact Hall | exact Hq]].
Qed.

(** *** Further facts about strings *)

Lemma prefix_append (a b : string) : String.prefix a (a ++ b) = true.
Proof.
  induction a as [|c a IH]; simpl; [now destruct b |].
  destruct (ascii_dec c c) as [_|N]; [exact IH | now elim N].
Qed.

Lemma hasByte_append (c : ascii) (a b : string) :
  hasByte c (a ++ b) = hasByte c a || hasByte c b.
Proof.
  induction a as [|d a IH]; simpl; [reflexivity |].
  now rewrite IH, orb_assoc.
Qed.

Lemma Split_cons (s : string) (sep : ascii) :
  exists piece rest, strings.Split s sep = piece :: rest.
Proof.
  induction s as [|c s (piece & rest & IH)]; simpl; [now eexists; eexists |].
  rewrite IH. destruct (Ascii.eqb c sep); eexists; eexists; reflexivity.
Qed.

Lemma Split_no_sep (s : string) (sep : ascii) :
  hasByte sep s = false -> strings.Split s sep = [s].
Proof.
  induction s as [|c s IH]; simpl; [reflexivity |].
  intros Hs. apply orb_false_iff in Hs as [Hc Hs].
  rewrite (IH Hs). rewrite Ascii.eqb_sym, Hc. reflexivity.
Qed.

Lemma Split_append_sep (a b : string) (sep : ascii) :
  hasByte sep a = false ->
  strings.Split (a ++ String sep b) sep = a :: strings.Split b sep.
Proof.
  induction a as [|c a IH]; simpl.
  - intros _. destruct (Split_cons b sep) as (piece & rest & ->).
    now rewrite Ascii.eqb_refl.
  - intros Hs. apply orb_false_iff in Hs as [Hc Hs].
    rewrite (IH Hs). rewrite Ascii.eqb_sym, Hc. reflexivity.
Qed.

Lemma TrimRight_append_cut (s cutset : string) (c : ascii) :
  strings.inCutset c cutset = true ->
  strings.TrimRight (s ++ String c "") cutset = strings.TrimRight s cutset.
Proof.
  intros Hc. induction s as [|d s IH]; simpl; [now rewrite Hc |].
  now rewrite IH.
Qed.

Lemma TrimRight_keeps (s cutset : string) :
  (forall c, lastByte s = Some c -> strings.inCutset c cutset = false) ->
  strings.TrimRight s cutset = s.
Proof.
  induction s as [|d s IH]; simpl; [reflexivity |].
  destruct s as [|e s].
  - intros Hl. simpl. now rewrite (Hl d eq_refl).
  - intros Hl. rewrite (IH Hl). reflexivity.
Qed.

(** Trimming the quotes [saveConfig] puts around a directory gives the
    directory back, unless it starts or ends with a quote itself. *)
Lemma Trim_quoted (dir : string) :
  firstByte dir <> Some DQUOTE -> lastByte dir <> Some DQUOTE ->
  strings.Trim (String DQUOTE (dir ++ String DQUOTE "")) (String DQUOTE "")
  = dir.
Proof.
  intros Hfirst Hlast. unfold strings.Trim.
  assert (Hkeep : strings.TrimRight dir (String DQUOTE "") = dir).
  { apply TrimRight_keeps. intros c Hc. simpl.
    destruct (Ascii.eqb_spec c DQUOTE) as [->|N]; [| reflexivity].
    now elim Hlast. }
  change (strings.TrimLeft (String DQUOTE (dir ++ String DQUOTE ""))
            (String DQUOTE ""))
    with (strings.TrimLeft (dir ++ String DQUOTE "") (String DQUOTE "")).
  destruct dir as [|c dir]; [reflexivity |].
  assert (Hc : strings.inCutset c (String DQUOTE "") = false).
  { simpl. destruct (Ascii.eqb_spec c DQUOTE) as [->|N]; [| reflexivity].
    now elim Hfirst. }
  change (String c dir ++ String DQUOTE "")%string
    with (String c (dir ++ String DQUOTE "")).
  cbn [strings.TrimLeft]. rewrite Hc.
  change (String c (dir ++ String DQUOTE ""))
    with (String c dir ++ String DQUOTE "")%string.
  rewrite TrimRight_append_cut; [exact Hkeep | reflexivity].
Qed.

Lemma configText_lines (dir : string) :
  hasByte (ascii_of_nat 10) dir = false ->
  strings.Split (configText dir) (ascii_of_nat 10)
  = [("APPIMAGE_DIR=" ++ String DQUOTE (dir ++ String DQUOTE ""))%string; ""].
Proof.
  intros Hdir.
  assert (E : configText dir
              = (("APPIMAGE_DIR=" ++ String DQUOTE (dir ++ String DQUOTE ""))
                 ++ String (ascii_of_nat 10) "")%string).
  { unfold configText, LF. rewrite append_assoc. simpl.
    now rewrite append_assoc. }
  rewrite E. rewrite Split_append_sep; [reflexivity |].
  rewrite hasByte_append. simpl. rewrite hasByte_append, Hdir. reflexivity.
Qed.

Lemma findAppImageDir_first (pre post : list string) (line : string) :
  (forall l, In l pre -> strings.HasPrefix l "APPIMAGE_DIR=" = false) ->
  strings.HasPrefix line "APPIMAGE_DIR=" = true ->
  findAppImageDir (pre ++ line :: post)
  = Some (strings.Trim (slice_from 13 line) (String DQUOTE "")).
Proof.
  intros Hpre Hline. induction pre as [|l pre IH]; simpl.
  - unfold strings.CutPrefix. now rewrite Hline.
  - unfold strings.CutPrefix. rewrite (Hpre l (or_introl eq_refl)).
    apply IH. intros l' Hl'. apply Hpre. now right.
Qed.

(** *** The configuration file *)

(** X1: what [saveConfig] writes, [loadConfig] reads back.  For a
    directory without a line feed that neither starts nor ends with a
    double quote, [saveConfig] always returns; when it returns nil it has
    written [configText dir] to the path; and wherever the file has that
    text, [loadConfig] returns the directory itself without an error. *)
Theorem saved_config_loads_back :
  forall (p dir : string) (s : Sys World),
    hasByte (ascii_of_nat 10) dir = false ->
    firstByte dir <> Some DQUOTE ->
    lastByte dir <> Some DQUOTE ->
    exists err s',
      saveConfig p dir s = Some (err, s')
      /\ (err = None ->
          In (ok (WriteFile p (configText dir) perm0644)) (newEvents s s'))
      /\ (forall s2,
             os_ReadFile (world s2) p = (configText dir, None) ->
             loadConfig p s2 = Some ((dir, None), s2)).
Proof.
  intros p dir s Hlf Hfirst Hlast.
  assert (Hload : forall s2,
             os_ReadFile (world s2) p = (configText dir, None) ->
             loadConfig p s2 = Some ((dir, None), s2)).
  { intros s2 Hread. unfold loadConfig, bind, ask, ret. rewrite Hread.
    rewrite (configText_lines dir Hlf).
    pose proof (findAppImageDir_first [] [""]
                  ("APPIMAGE_DIR=" ++ String DQUOTE (dir ++ String DQUOTE ""))
                  (fun l (Hl : In l []) => match Hl with end)
                  (prefix_append _ _)) as Hfirst_line.
    change 13%nat with (String.length "APPIMAGE_DIR=") in Hfirst_line.
    rewrite slice_from_append, Trim_quoted in Hfirst_line by assumption.
    cbn [List.app] in Hfirst_line. now rewrite Hfirst_line. }
  unfold saveConfig.
  change ("APPIMAGE_DIR=" ++ String DQUOTE dir ++ String DQUOTE LF)%string
    with (configText dir).
  remember (configText dir) as content eqn:Hcontent. clear Hcontent.
  unfold bind, ret, MkdirAll_, WriteFile_, sys.
  destruct (os_MkdirAll (world s) (filepath.Dir p) perm0755) as [[e|] w];
    simpl.
  - do 2 eexists. split; [reflexivity |]. split; [discriminate | exact Hload].
  - destruct (os_WriteFile w p content perm0644) as [[e|] w'];
      simpl.
    + do 2 eexists. split; [reflexivity |].
      split; [discriminate | exact Hload].
    + do 2 eexists. split; [reflexivity |]. split; [| exact Hload].
      intros _. trace_norm. simpl. auto.
Qed.

(** X2: [loadConfig] passes a read error on unchanged, and otherwise
    answers with the first line that starts with the key: the rest of that
    line with the double quotes at its ends removed; later lines do not
    matter, and the world is not touched. *)
Theorem loadConfig_first_key_line :
  forall (p : string) (s : Sys World),
    (forall data e,
        os_ReadFile (world s) p = (data, Some e) ->
        loadConfig p s = Some (("", Some e), s))
    /\ (forall data pre line post,
           os_ReadFile (world s) p = (data, None) ->
           strings.Split data (ascii_of_nat 10) = (pre ++ line :: post)%list ->
           (forall l, In l pre ->
                      strings.HasPrefix l "APPIMAGE_DIR=" = false) ->
           strings.HasPrefix line "APPIMAGE_DIR=" = true ->
           loadConfig p s
           = Some ((strings.Trim (slice_from 13 line) (String DQUOTE ""),
                    None), s)).
Proof.
  intros p s. split.
  - intros data e Hread. unfold loadConfig, bind, ask, ret.
    now rewrite Hread.
  - intros data pre line post Hread Hsplit Hpre Hline.
    unfold loadConfig, bind, ask, ret. rewrite Hread, Hsplit.
    now rewrite (findAppImageDir_first pre post line Hpre Hline).
Qed.

(** *** File names and filters *)

Lemma lowerByte_not_upper (c : ascii) :
  strings.isUpper (strings.lowerByte c) = false.
Proof. destruct c as [[] [] [] [] [] [] [] []]; reflexivity. Qed.

Lemma lowerByte_space (c : ascii) :
  Ascii.eqb " "%char (strings.lowerByte c) = Ascii.eqb " "%char c.
Proof. destruct c as [[] [] [] [] [] [] [] []]; reflexivity. Qed.

Lemma mapBytes_append (f : ascii -> ascii) (a b : string) :
  strings.mapBytes f (a ++ b)
  = (strings.mapBytes f a ++ strings.mapBytes f b)%string.
Proof. induction a as [|c a IH]; simpl; [reflexivity | now rewrite IH]. Qed.

Lemma mapBytes_length (f : ascii -> ascii) (a : string) :
  String.length (strings.mapBytes f a) = String.length a.
Proof. induction a as [|c a IH]; simpl; [reflexivity | now rewrite IH]. Qed.

Lemma isASCII_append (a b : string) :
  strings.isASCII (a ++ b) = strings.isASCII a && strings.isASCII b.
Proof.
  induction a as [|c a IH]; simpl; [reflexivity |].
  now rewrite IH, andb_assoc.
Qed.

Lemma lower_no_upper (c : ascii) (a : string) :
  strings.isUpper c = true ->
  hasByte c (strings.mapBytes strings.lowerByte a) = false.
Proof.
  intros Hc. induction a as [|d a IH]; cbn [hasByte strings.mapBytes];
    [reflexivity |].
  rewrite IH, orb_false_r. apply Ascii.eqb_neq. intros E.
  pose proof (lowerByte_not_upper d) as N. rewrite <- E, Hc in N.
  discriminate N.
Qed.

Lemma lower_space (a : string) :
  hasByte " "%char (strings.mapBytes strings.lowerByte a)
  = hasByte " "%char a.
Proof.
  induction a as [|d a IH]; cbn [hasByte strings.mapBytes]; [reflexivity |].
  now rewrite IH, lowerByte_space.
Qed.

Lemma ReplaceAll_space (a : string) :
  hasByte " "%char (strings.ReplaceAll a " "%char "-") = false
  /\ strings.isASCII (strings.ReplaceAll a " "%char "-") = strings.isASCII a
  /\ String.length (strings.ReplaceAll a " "%char "-") = String.length a.
Proof.
  induction a as [|d a (IH1 & IH2 & IH3)]; [simpl; auto |].
  cbn [strings.ReplaceAll].
  destruct (Ascii.eqb_spec d " "%char) as [->|N].
  - change ("-" ++ strings.ReplaceAll a " "%char "-")%string
      with (String "-"%char (strings.ReplaceAll a " "%char "-")).
    cbn [hasByte strings.isASCII String.length].
    rewrite IH1, IH2, IH3. repeat split; reflexivity.
  - cbn [hasByte strings.isASCII String.length].
    rewrite IH1, IH2, IH3. repeat split; try reflexivity.
    rewrite orb_false_r. apply Ascii.eqb_neq. congruence.
Qed.

(** X3: the file name derived from an ASCII application name has no
    space and no upper-case letter, ends in [.desktop] and is eight bytes
    longer than the name. *)
Theorem desktop_filename_shape :
  forall appName : string,
    strings.isASCII appName = true ->
    hasByte " "%char (desktopFilenameOf appName) = false
    /\ (forall c, strings.isUpper c = true ->
                  hasByte c (desktopFilenameOf appName) = false)
    /\ strings.HasSuffix (desktopFilenameOf appName) ".desktop" = true
    /\ String.length (desktopFilenameOf appName)
       = (String.length appName + 8)%nat.
Proof.
  intros appName Hascii. unfold desktopFilenameOf, strings.ToLower.
  destruct (ReplaceAll_space appName) as (Hsp & Has & Hlen).
  rewrite Has, Hascii.
  split; [| split; [| split]].
  - rewrite hasByte_append, lower_space, Hsp. reflexivity.
  - intros c Hc. rewrite hasByte_append, (lower_no_upper c _ Hc).
    destruct c as [[] [] [] [] [] [] [] []]; try discriminate Hc; reflexivity.
  - apply HasSuffix_append.
  - rewrite length_append, mapBytes_length, Hlen. reflexivity.
Qed.

(** X4: both filters ignore the letter case of an ASCII name: a name that
    ends, in any mix of cases, in one of the image extensions passes
    [isImageFile], and one that ends in [.appimage] passes the bundle
    filter. *)
Theorem filters_ignore_case :
  forall base ending : string,
    strings.isASCII base = true ->
    strings.isASCII ending = true ->
    (In (strings.mapBytes strings.lowerByte ending) extensions ->
     isImageFile (base ++ ending) = true)
    /\ (strings.mapBytes strings.lowerByte ending = ".appimage" ->
        isAppImage (base ++ ending) = true).
Proof.
  intros base ending Hb He.
  assert (Hlow : strings.ToLower (base ++ ending)
                 = (strings.mapBytes strings.lowerByte base
                    ++ strings.mapBytes strings.lowerByte ending)%string).
  { unfold strings.ToLower. rewrite isASCII_append, Hb, He. simpl.
    apply mapBytes_append. }
  split.
  - intros Hin. unfold isImageFile. rewrite Hlow. apply existsb_exists.
    eexists. split; [exact Hin | apply HasSuffix_append].
  - intros Heq. unfold isAppImage. rewrite Hlow, Heq. apply HasSuffix_append.
Qed.

(** *** More on listings and search *)

Lemma listEntry_keep (iconMode : bool) (dir : string) (entry : DirEntry) :
  listEntry iconMode dir entry
  = if keepEntry iconMode entry then [entryOf dir entry] else [].
Proof.
  unfold listEntry, keepEntry, entryOf.
  destruct (IsDir entry); simpl; [reflexivity |].
  destruct iconMode; simpl.
  - now destruct (isImageFile (Name entry)).
  - now destruct (isAppImage (Name entry)).
Qed.

Lemma flat_map_listEntry (iconMode : bool) (dir : string)
    (entries : list DirEntry) :
  flat_map (listEntry iconMode dir) entries
  = map (entryOf dir) (filter (keepEntry iconMode) entries).
Proof.
  induction entries as [|entry entries IH]; simpl; [reflexivity |].
  rewrite IH, listEntry_keep.
  now destruct (keepEntry iconMode entry).
Qed.

(** X5: a listing keeps the order of [os.ReadDir] and does not group
    directories before files: after the parent entry come exactly the
    entries that are directories or pass the filter, in the order they
    were read, each with its name, its path joined onto the current
    directory and its directory flag; the cursor is 0 and search is off. *)
Theorem listing_keeps_read_order :
  forall (iconMode : bool) (m : model) (s : Sys World)
         (entries : list DirEntry),
    os_ReadDir (world s) (currentDir m) = (entries, None) ->
    exists m',
      loadDirectoryWithFilter iconMode m s = Some (m', s)
      /\ files m'
         = (parentEntry (currentDir m)
            ++ map (entryOf (currentDir m))
                 (filter (keepEntry iconMode) entries))%list
      /\ allFiles m' = files m'
      /\ cursor m' = 0 /\ searchMode m' = false /\ searchQuery m' = ""
      /\ currentDir m' = currentDir m /\ currentStep m' = currentStep m
      /\ error m' = error m.
Proof.
  intros iconMode m s entries Hread.
  eexists. split; [apply loadDirectoryWithFilter_run |].
  rewrite Hread. simpl. unfold listing.
  rewrite flat_map_listEntry. repeat split; reflexivity.
Qed.

(** X6: a directory that cannot be read is not fatal.  The browser shows
    an empty list with the text of the error, whatever entries came with
    the error; the step and the directory stay; and Enter on that list
    does nothing. *)
Theorem failed_read_leaves_empty_browser :
  forall (iconMode : bool) (m : model) (s : Sys World)
         (entries : list DirEntry) (e : GoError),
    isFileBrowserStep m = true ->
    os_ReadDir (world s) (currentDir m) = (entries, Some e) ->
    exists m',
      loadDirectoryWithFilter iconMode m s = Some (m', s)
      /\ files m' = [] /\ allFiles m' = []
      /\ error m' = ("Failed to read directory: " ++ Error e)%string
      /\ currentStep m' = currentStep m /\ currentDir m' = currentDir m
      /\ Update m' (KeyMsg "enter") s = Some ((m', CmdNil), s).
Proof.
  intros iconMode m s entries e Hstep Hread.
  eexists. split; [apply loadDirectoryWithFilter_run |].
  rewrite Hread. simpl. repeat split; try reflexivity.
  unfold Update, isFileBrowserStep, handleFileBrowserKeys, handleEnter in *.
  simpl. destruct (currentStep m); try discriminate Hstep; reflexivity.
Qed.

Lemma pickMatches_spec (all : list fileEntry) (matches : list Match)
    (fs : list fileEntry) :
  pickMatches all matches = Some fs ->
  Forall2 (fun mt f => index all (Index mt) = Some f) matches fs.
Proof.
  revert fs; induction matches as [|mt matches IH]; intros fs; simpl.
  - intros E; injection E as <-. constructor.
  - destruct (index all (Index mt)) as [f|] eqn:Ef; [| discriminate].
    destruct (pickMatches all matches) as [fs'|]; [| discriminate].
    intros E; injection E as <-. constructor; [exact Ef | now apply IH].
Qed.

Lemma picked_incl (all : list fileEntry) (matches : list Match)
    (fs : list fileEntry) :
  Forall2 (fun mt f => index all (Index mt) = Some f) matches fs ->
  incl fs all.
Proof.
  induction 1 as [|mt f ms fs' Hidx _ IH]; intros f' Hf; [destruct Hf |].
  destruct Hf as [<-|Hf]; [| now apply IH].
  now apply index_Some_in in Hidx.
Qed.

Lemma pickMatches_panics (all : list fileEntry) (matches : list Match) :
  pickMatches all matches = None <->
  exists mt, In mt matches /\ ~ 0 <= Index mt < llen all.
Proof.
  split.
  - induction matches as [|mt matches IH]; simpl; [discriminate |].
    destruct (index all (Index mt)) as [f|] eqn:Ef.
    + destruct (pickMatches all matches) as [fs'|]; [discriminate |].
      intros _. destruct (IH eq_refl) as (mt' & Hin & Hout).
      exists mt'. split; [now right | exact Hout].
    + intros _. exists mt. split; [now left |].
      intros Hr. destruct (index_in_range all (Index mt) Hr) as (f & Hf & _).
      congruence.
  - intros (mt & Hin & Hout).
    destruct (pickMatches all matches) as [fs|] eqn:E; [| reflexivity].
    apply pickMatches_spec in E. exfalso. apply Hout.
    clear Hout. induction E as [|mt' f ms fs' Hidx _ IH]; [destruct Hin |].
    destruct Hin as [<-|Hin]; [| now apply IH].
    now apply index_Some_in in Hidx.
Qed.

(** X7: with a non-empty query, [applyFuzzySearch] shows, match by match
    and in the matcher's order, the entry of the unfiltered list at the
    position the match reports, so every visible entry is one of the
    unfiltered list, which is left as it was; it panics exactly when some
    match reports a position outside that list. *)
Theorem fuzzy_search_shows_matched_entries :
  forall m : model,
    searchQuery m <> "" ->
    let matches := fuzzy_FindFrom (searchQuery m) (map name (allFiles m)) in
    (applyFuzzySearch m = None <->
     exists mt, In mt matches /\ ~ 0 <= Index mt < llen (allFiles m))
    /\ (forall m',
           applyFuzzySearch m = Some m' ->
           Forall2 (fun mt f => index (allFiles m) (Index mt) = Some f)
             matches (files m')
           /\ incl (files m') (allFiles m)
           /\ fuzzyMatches m' = matches
           /\ allFiles m' = allFiles m
           /\ searchQuery m' = searchQuery m).
Proof.
  intros m Hq matches. apply String.eqb_neq in Hq.
  unfold applyFuzzySearch. rewrite Hq. simpl. fold matches.
  destruct (pickMatches (allFiles m) matches) as [fs|] eqn:Epick.
  - split.
    + split.
      * destruct (cursor m >=? llen fs); discriminate.
      * intros Hout. apply pickMatches_panics in Hout. congruence.
    + intros m' Hrun.
      assert (Hm' : files m' = fs /\ fuzzyMatches m' = matches
                    /\ allFiles m' = allFiles m
                    /\ searchQuery m' = searchQuery m).
      { destruct (cursor m >=? llen fs); injection Hrun as <-; simpl; auto. }
      destruct Hm' as (-> & H2 & H3 & H4).
      pose proof (pickMatches_spec _ _ _ Epick) as Hspec.
      repeat split; try assumption.
      exact (picked_incl _ _ _ Hspec).
  - split.
    + split; [intros _; now apply pickMatches_panics | reflexivity].
    + intros m' Hrun. discriminate Hrun.
Qed.

(** X8: filtering again with the same query changes nothing: the result
    of [applyFuzzySearch] is a fixed point of it. *)
Theorem fuzzy_search_idempotent :
  forall m m' : model,
    applyFuzzySearch m = Some m' -> applyFuzzySearch m' = Some m'.
Proof.
  intros m m'. unfold applyFuzzySearch.
  destruct (String.eqb (searchQuery m) "") eqn:Eq.
  - intros E; injection E as <-. simpl. rewrite Eq. reflexivity.
  - simpl.
    destruct (pickMatches (allFiles m)
                (fuzzy_FindFrom (searchQuery m) (map name (allFiles m))))
      as [fs|] eqn:Epick; [| discriminate].
    destruct (cursor m >=? llen fs) eqn:Ec; intros E; injection E as <-;
      simpl; rewrite Eq, Epick; simpl.
    + destruct (Z.max 0 (llen fs - 1) >=? llen fs) eqn:Ec'; [| reflexivity].
      rewrite Z.geb_leb in Ec'. apply Z.leb_le in Ec'.
      assert (Hnil : fs = []).
      { destruct fs as [|f fs]; [reflexivity |].
        unfold llen in Ec'. cbn [List.length] in Ec'. lia. }
      subst fs. reflexivity.
    + rewrite Ec. reflexivity.
Qed.

(** *** Keys outside the browser *)

#[local] Arguments configText : simpl never.

(** X9: Ctrl+C quits from every step and mode without touching the model
    or the world; Esc does the same except in a browser with search
    active, where it does not quit. *)
Theorem quit_keys :
  forall (m : model) (s : Sys World),
    Update m (KeyMsg "ctrl+c") s = Some ((m, Quit), s)
    /\ (isFileBrowserStep m && searchMode m = false ->
        Update m (KeyMsg "esc") s = Some ((m, Quit), s))
    /\ (isFileBrowserStep m && searchMode m = true ->
        exists m', Update m (KeyMsg "esc") s = Some ((m', CmdNil), s)).
Proof.
  intros m s. unfold Update, handleFileBrowserKeys.
  destruct (isFileBrowserStep m); destruct (searchMode m); simpl;
    repeat split; try reflexivity; try discriminate; intros _;
    eexists; reflexivity.
Qed.

(** X10: the Processing, Complete and Error steps do not react to keys.
    No key changes the step or writes anything; the model is unchanged
    unless the key is Backspace and the input is not empty; and the
    command is [tea.Quit] exactly for Esc and Ctrl+C, and for Enter in
    Complete and Error: other keys do not exit. *)
Theorem closing_steps_ignore_keys :
  forall (m : model) (key : string) (s : Sys World),
    currentStep m = stepProcessing \/ currentStep m = stepComplete
    \/ currentStep m = stepError ->
    exists m' cmd,
      Update m (KeyMsg key) s = Some ((m', cmd), s)
      /\ currentStep m' = currentStep m
      /\ (key <> "backspace" \/ input m = "" -> m' = m)
      /\ (cmd = Quit <->
          key = "esc" \/ key = "ctrl+c"
          \/ (key = "enter" /\ currentStep m <> stepProcessing))
      /\ (cmd = Quit \/ cmd = CmdNil).
Proof.
  intros m key s Hstep. unfold Update, isFileBrowserStep.
  assert (Hb : match currentStep m with
               | stepFileBrowser | stepIconBrowser => true
               | _ => false
               end = false)
    by (destruct Hstep as [-> | [-> | ->]]; reflexivity).
  rewrite Hb.
  key_case key "ctrl+c".
  { do 2 eexists. split; [reflexivity |]. repeat split; auto. }
  key_case key "esc".
  { do 2 eexists. split; [reflexivity |]. repeat split; auto. }
  key_case key "enter".
  { unfold handleEnter.
    destruct Hstep as [E | [E | E]]; rewrite E;
      do 2 eexists; (split; [reflexivity |]);
      (split; [exact E |]); (split; [reflexivity |]);
      (split; [| auto]).
    - split; [discriminate |].
      intros [Hk | [Hk | [_ Hk]]]; try discriminate Hk. now elim Hk.
    - split; [| reflexivity]. intros _. right; right.
      split; [reflexivity | discriminate].
    - split; [| reflexivity]. intros _. right; right.
      split; [reflexivity | discriminate]. }
  assert (Hno : ~ (key = "esc" \/ key = "ctrl+c"
                   \/ key = "enter" /\ currentStep m <> stepProcessing))
    by (intros [Hk | [Hk | [Hk _]]]; contradiction).
  assert (Hiff : CmdNil = Quit <->
                 key = "esc" \/ key = "ctrl+c"
                 \/ key = "enter" /\ currentStep m <> stepProcessing)
    by (split; [discriminate | intros Hk; now elim Hno]).
  key_case key "backspace".
  { destruct (len (input m) >? 0) eqn:Elen.
    - do 2 eexists. split; [reflexivity |]. simpl.
      split; [reflexivity |]. split; [| split; [exact Hiff | auto]].
      intros [Hk | Hin]; [now elim Hk |].
      rewrite Hin in Elen. discriminate Elen.
    - do 2 eexists. split; [reflexivity |].
      split; [reflexivity |]. split; [reflexivity | split; [exact Hiff | auto]]. }
  destruct Hstep as [E | [E | E]]; rewrite E in *;
    do 2 eexists; (split; [reflexivity |]);
    (split; [exact E |]); (split; [reflexivity | split; [exact Hiff | auto]]).
Qed.

Lemma dropLast_append_byte (a : string) (c : ascii) :
  dropLast (a ++ String c "") = a
  /\ (len (a ++ String c "") >? 0) = true.
Proof.
  unfold dropLast, len. rewrite length_append. cbn [String.length].
  replace (String.length a + 1 - 1)%nat with (String.length a) by lia.
  split; [| apply Z.gtb_lt; lia].
  induction a as [|d a IH]; simpl; [reflexivity | now rewrite IH].
Qed.

Lemma set_input_same (m : model) : set_input (input m) m = m.
Proof. now destruct m. Qed.

(** X11: in the five text steps a one-byte key is appended to the input
    and Backspace takes it off again, giving back the model as it was;
    neither returns a command nor writes anything. *)
Theorem typed_byte_then_backspace :
  forall (m : model) (c : ascii) (s : Sys World),
    isTextStep (currentStep m) = true ->
    exists m1,
      Update m (KeyMsg (String c "")) s = Some ((m1, CmdNil), s)
      /\ input m1 = (input m ++ String c "")%string
      /\ Update m1 (KeyMsg "backspace") s = Some ((m, CmdNil), s).
Proof.
  intros m c s Hstep.
  exists (set_input (input m ++ String c "") m).
  destruct (dropLast_append_byte (input m) c) as [Hdrop Hpos].
  unfold Update, isFileBrowserStep.
  repeat (rewrite single_byte_key by (simpl; lia)).
  destruct (currentStep m) eqn:Estep; try discriminate Hstep; simpl;
    rewrite Estep; simpl; rewrite Hpos, Hdrop;
    (split; [reflexivity |]); (split; [reflexivity |]);
    change (set_input (input m) (set_input (input m ++ String c "") m))
      with (set_input (input m) m);
    rewrite set_input_same; reflexivity.
Qed.

(** X12: the name step insists on a name.  Enter with an empty input
    stays on the step and only sets the error text; with anything else it
    stores the input as the name, moves to the description step and
    empties the input and the error. *)
Theorem app_name_is_required :
  forall (m : model) (s : Sys World),
    currentStep m = stepAppName ->
    exists m',
      Update m (KeyMsg "enter") s = Some ((m', CmdNil), s)
      /\ (input m = "" ->
          m' = set_error "Application name is required" m)
      /\ (input m <> "" ->
          m' = set_error ""
                 (set_input ""
                    (set_currentStep stepDescription
                       (set_appName (input m) m)))).
Proof.
  intros m s Hstep. unfold Update, isFileBrowserStep, handleEnter.
  rewrite Hstep. simpl.
  destruct (String.eqb_spec (input m) "") as [E|E];
    eexists; (split; [reflexivity |]); split; intros E';
    try reflexivity; contradiction.
Qed.

(** X13: the icon step accepts an empty input without looking at the
    disk, refuses a path that [os.Stat] reports as not existing (the step
    and the icon stay, the error names the path), and accepts any other
    path, also one whose [os.Stat] fails for another reason; accepting
    stores the path and preloads the categories input with [Utility;]. *)
Theorem icon_path_is_checked :
  forall (m : model) (s : Sys World),
    currentStep m = stepIcon ->
    input m <> "b" -> input m <> "B" ->
    exists m',
      Update m (KeyMsg "enter") s = Some ((m', CmdNil), s)
      /\ (if negb (String.eqb (input m) "")
             && os_IsNotExist (os_Stat (world s) (input m))
          then m' = set_error
                      ("Warning: Icon file not found: " ++ input m) m
          else m' = set_error ""
                      (set_input "Utility;"
                         (set_currentStep stepCategories
                            (set_iconPath (input m) m)))).
Proof.
  intros m s Hstep Hb HB. unfold Update, isFileBrowserStep, handleEnter.
  rewrite Hstep. simpl.
  apply String.eqb_neq in Hb, HB. rewrite Hb, HB. simpl.
  unfold bind, ask, ret.
  destruct (String.eqb (input m) ""); simpl.
  - eexists. split; reflexivity.
  - destruct (os_IsNotExist (os_Stat (world s) (input m)));
      eexists; split; reflexivity.
Qed.

(** [saveConfig], call by call. *)
Lemma saveConfig_run (p dir : string) (s : Sys World) :
  saveConfig p dir s
  = match os_MkdirAll (world s) (filepath.Dir p) perm0755 with
    | (Some e, w) =>
        Some (Some e,
              {| world := w;
                 trace := trace s
                          ++ [{| call := MkdirAll (filepath.Dir p) perm0755;
                                 result := Some e |}] |})
    | (None, w) =>
        let '(r, w') := os_WriteFile w p (configText dir) perm0644 in
        Some (r,
              {| world := w';
                 trace := (trace s ++ [ok (MkdirAll (filepath.Dir p) perm0755)])
                          ++ [{| call := WriteFile p (configText dir) perm0644;
                                 result := r |}] |})
    end.
Proof.
  unfold saveConfig, bind, ret, MkdirAll_, WriteFile_, sys.
  destruct (os_MkdirAll (world s) (filepath.Dir p) perm0755) as [[e|] w];
    reflexivity.
Qed.

#[local] Arguments saveConfig : simpl never.

(** X14: confirming the storage directory.  The directory is the input,
    or [Applications] under the home directory for an empty input.  The
    program creates it, creates the directory of the configuration file
    and writes [configText] there, in this order, stopping at the first
    call that fails.  When all three succeed the wizard is at the name
    step with an empty input; otherwise it is at the Error step with the
    text of the failure, and no later call was made. *)
Theorem storage_directory_confirmed :
  forall (m : model) (s : Sys World),
    currentStep m = stepAppImageDir ->
    let dir :=
      if String.eqb (input m) ""
      then filepath.Join [fst (os_UserHomeDir (world s)); "Applications"]
      else input m in
    let mkdir := MkdirAll dir perm0755 in
    let mkconf := MkdirAll (filepath.Dir (configPath m)) perm0755 in
    let write := WriteFile (configPath m) (configText dir) perm0644 in
    exists m' s',
      Update m (KeyMsg "enter") s = Some ((m', CmdNil), s')
      /\ appImageDir m' = dir
      /\ ((currentStep m' = stepAppName /\ input m' = ""
           /\ newEvents s s' = [ok mkdir; ok mkconf; ok write])
          \/ (exists e,
                 currentStep m' = stepError
                 /\ ((newEvents s s' = [{| call := mkdir; result := Some e |}]
                      /\ error m'
                         = ("Failed to create directory: " ++ Error e)%string)
                     \/ ((newEvents s s'
                          = [ok mkdir; {| call := mkconf; result := Some e |}]
                          \/ newEvents s s'
                             = [ok mkdir; ok mkconf;
                                {| call := write; result := Some e |}])
                         /\ error m'
                            = ("Failed to save config: " ++ Error e)%string)))).
Proof.
  intros m s Hstep dir mkdir mkconf write.
  unfold Update, isFileBrowserStep, handleEnter. rewrite Hstep. simpl.
  assert (Hdir : exists m0,
             (if String.eqb (input m) ""
              then bind (ask os_UserHomeDir)
                     (fun '(homeDir, _) =>
                        ret (set_input
                               (filepath.Join [homeDir; "Applications"]) m))
              else ret m) s = Some (m0, s)
             /\ input m0 = dir /\ configPath m0 = configPath m).
  { subst dir. unfold bind, ask, ret.
    destruct (String.eqb (input m) "").
    - destruct (os_UserHomeDir (world s)) as [homeDir e]. simpl.
      eexists. split; [reflexivity |]. split; reflexivity.
    - eexists. split; [reflexivity |]. split; reflexivity. }
  destruct Hdir as (m0 & Hm0 & Hin & Hcfg).
  unfold bind at 1. rewrite Hm0. simpl. rewrite Hin, Hcfg.
  unfold bind, ret, MkdirAll_, sys. fold mkdir.
  destruct (os_MkdirAll (world s) dir perm0755) as [[e|] w]; simpl.
  { do 2 eexists. split; [reflexivity |]. split; [reflexivity |].
    right. exists e. split; [reflexivity |]. left. trace_norm.
    split; reflexivity. }
  rewrite saveConfig_run. simpl. fold mkconf.
  destruct (os_MkdirAll w (filepath.Dir (configPath m)) perm0755)
    as [[e|] w1]; simpl.
  { do 2 eexists. split; [reflexivity |]. split; [reflexivity |].
    right. exists e. split; [reflexivity |]. right. trace_norm.
    split; [left |]; reflexivity. }
  fold write.
  destruct (os_WriteFile w1 (configPath m) (configText dir) perm0644)
    as [[e|] w2]; simpl.
  { do 2 eexists. split; [reflexivity |]. split; [reflexivity |].
    right. exists e. split; [reflexivity |]. right. trace_norm.
    split; [right |]; reflexivity. }
  do 2 eexists. split; [reflexivity |]. split; [reflexivity |].
  left. trace_norm. repeat split; reflexivity.
Qed.

(** *** More on the pipeline and the wizard *)

(** An event is in a listed few: find it. *)
Ltac in_list :=
  simpl;
  repeat match goal with
         | |- _ \/ _ => first [left; reflexivity | right]
         end.

(** X15: once the pipeline runs the pkexec copy, that call decides the
    outcome: success when it returns nil, the failure
    [failed to copy desktop file] otherwise.  The pkexec copy is only run
    after the unprivileged copy of the same file failed and pkexec was
    found; [update-desktop-database] is only run after a successful
    pkexec copy and a successful look-up, and its result is ignored. *)
Theorem pkexec_copy_decides_outcome :
  forall (m : model) (s : Sys World),
    exists msg s',
      pipeline m s = Some (Some msg, s')
      /\ (forall tmp dst r,
            In {| call := Run ["pkexec"; "cp"; tmp; dst]; result := r |}
               (newEvents s s') ->
            msg = installCompleteMsg
                    (match r with
                     | None => None
                     | Some _ =>
                         Some (errorf_w "failed to copy desktop file: " r)
                     end)
            /\ (exists e,
                   In {| call := Run ["cp"; tmp; dst]; result := Some e |}
                      (newEvents s s'))
            /\ In (ok (LookPath "pkexec")) (newEvents s s'))
      /\ (forall r,
            In {| call := Run ["pkexec"; "update-desktop-database";
                               "/usr/share/applications"];
                  result := r |} (newEvents s s') ->
            msg = installCompleteMsg None
            /\ In (ok (LookPath "update-desktop-database")) (newEvents s s')
            /\ exists tmp dst,
                In (ok (Run ["pkexec"; "cp"; tmp; dst])) (newEvents s s')).
Proof.
  intros m s. io_unfold. repeat io_step.
  all: do 2 eexists; (split; [reflexivity |]).
  all: split;
    [ intros tmp' dst' r' Hpk; trace_norm_in Hpk; in_events Hpk;
      injection Hpk as <- <- <-;
      (split; [reflexivity |]); trace_norm;
      (split; [eexists; in_list | in_list])
    | intros r' Hup; trace_norm_in Hup; in_events Hup;
      injection Hup as <-;
      (split; [reflexivity |]); trace_norm;
      (split; [in_list | do 2 eexists; in_list]) ].
Qed.

Lemma applyFuzzySearch_step (m m' : model) :
  applyFuzzySearch m = Some m' -> currentStep m' = currentStep m.
Proof.
  unfold applyFuzzySearch.
  destruct (String.eqb (searchQuery m) ""); [intros E; now injection E as <- |].
  simpl. destruct (pickMatches _ _); [| discriminate].
  destruct (_ >=? _); intros E; now injection E as <-.
Qed.

Lemma load_step (iconMode : bool) (m m' : model) (s s' : Sys World) :
  loadDirectoryWithFilter iconMode m s = Some (m', s') ->
  currentStep m' = currentStep m.
Proof.
  rewrite loadDirectoryWithFilter_run. intros E. injection E as <- _.
  destruct (os_ReadDir (world s) (currentDir m)) as [entries [e|]];
    reflexivity.
Qed.

(** Enter never moves the wizard to an earlier step. *)
Lemma handleEnter_forward (m m' : model) (cmd : Cmd) (s s' : Sys World) :
  handleEnter m s = Some ((m', cmd), s') ->
  stepNum (currentStep m) <= stepNum (currentStep m').
Proof.
  unfold handleEnter. destruct (currentStep m) eqn:Estep.
  - (* stepFileBrowser *)
    destruct (llen (files m) =? 0);
      [intros E; injection E as <- _ _; rewrite Estep; simpl; lia |].
    unfold bind, lift. destruct (index (files m) (cursor m)) as [sel|];
      [| discriminate].
    simpl. destruct (isDir sel).
    + unfold loadDirectory.
      destruct (loadDirectoryWithFilter false _ s) as [[m1 s1]|] eqn:El;
        [| discriminate].
      apply load_step in El. simpl in El.
      intros E; injection E as <- _ _. rewrite El, Estep. simpl. lia.
    + unfold ask, ret, loadConfig, bind, ask, ret. simpl.
      destruct (os_UserHomeDir (world s)) as [homeDir e].
      destruct (os_IsNotExist _);
        [intros E; injection E as <- _ _; simpl; lia |].
      destruct (os_ReadFile _ _) as [data [e'|]]; simpl;
        [| destruct (findAppImageDir _); simpl];
        intros E; injection E as <- _ _; simpl; lia.
  - (* stepAppImageDir *)
    unfold bind at 1.
    destruct (String.eqb (input m) "");
      unfold bind, ask, ret, MkdirAll_, sys; simpl;
      try destruct (os_UserHomeDir (world s)) as [homeDir e0]; simpl;
      repeat match goal with
             | |- context [saveConfig _ _ _] => rewrite saveConfig_run; simpl
             | |- context [os_MkdirAll ?w ?a ?b] =>
                 destruct (os_MkdirAll w a b) as [[?|] ?]; simpl
             | |- context [os_WriteFile ?w ?a ?b ?c] =>
                 destruct (os_WriteFile w a b c) as [[?|] ?]; simpl
             end;
      intros E; injection E as <- _ _; simpl; rewrite ?Estep; simpl; lia.
  - (* stepAppName *)
    destruct (String.eqb (input m) "");
      intros E; injection E as <- _ _; simpl; rewrite ?Estep; simpl; lia.
  - intros E; injection E as <- _ _; simpl; lia.
  - (* stepIcon *)
    destruct (String.eqb (input m) "b" || String.eqb (input m) "B").
    + unfold bind, ask, loadIconDirectory. simpl.
      destruct (os_UserHomeDir (world s)) as [homeDir e].
      destruct (loadDirectoryWithFilter true _ s) as [[m1 s1]|] eqn:El;
        [| discriminate].
      apply load_step in El. simpl in El.
      intros E; injection E as <- _ _. rewrite El. simpl. lia.
    + unfold bind, ask, ret.
      destruct (negb (String.eqb (input m) "")); simpl;
        try destruct (os_IsNotExist _); simpl;
        intros E; injection E as <- _ _; simpl; rewrite ?Estep; simpl; lia.
  - (* stepIconBrowser *)
    destruct (llen (files m) =? 0);
      [intros E; injection E as <- _ _; rewrite Estep; simpl; lia |].
    unfold bind, lift. destruct (index (files m) (cursor m)) as [sel|];
      [| discriminate].
    simpl. destruct (isDir sel).
    + unfold loadIconDirectory.
      destruct (loadDirectoryWithFilter true _ s) as [[m1 s1]|] eqn:El;
        [| discriminate].
      apply load_step in El. simpl in El.
      intros E; injection E as <- _ _. rewrite El, Estep. simpl. lia.
    + intros E; injection E as <- _ _; simpl; lia.
  - (* stepCategories *)
    match goal with
    | |- install ?m0 s = _ -> _ =>
        destruct (install_returns m0 s) as (m1 & c1 & s1 & Hrun & Hm1);
        rewrite Hrun; intros E; injection E as <- _ _;
        destruct Hm1 as [-> | ->]; simpl; lia
    end.
  - intros E; injection E as <- _ _; rewrite Estep; simpl; lia.
  - intros E; injection E as <- _ _; rewrite Estep; simpl; lia.
  - intros E; injection E as <- _ _; rewrite Estep; simpl; lia.
Qed.

(** X16: the wizard only moves forward.  Whatever key [Update] receives,
    in any step and mode, the step after it is the same or a later one in
    the order of the step constants. *)
Theorem keys_never_go_back :
  forall (m m' : model) (key : string) (cmd : Cmd) (s s' : Sys World),
    Update m (KeyMsg key) s = Some ((m', cmd), s') ->
    stepNum (currentStep m) <= stepNum (currentStep m').
Proof.
  intros m m' key cmd s s'. unfold Update.
  assert (Hsame : forall m1 c1,
             currentStep m1 = currentStep m ->
             ret (m1, c1) s = Some ((m', cmd), s') ->
             stepNum (currentStep m) <= stepNum (currentStep m')).
  { intros m1 c1 E1 E. injection E as <- _ _. rewrite E1. lia. }
  assert (Hfuzzy : forall m0,
             currentStep m0 = currentStep m ->
             bind (lift (applyFuzzySearch m0))
               (fun m1 => ret (m1, CmdNil)) s = Some ((m', cmd), s') ->
             stepNum (currentStep m) <= stepNum (currentStep m')).
  { intros m0 E0. unfold bind, lift.
    destruct (applyFuzzySearch m0) as [m1|] eqn:Ef; [| discriminate].
    apply applyFuzzySearch_step in Ef. simpl.
    intros E. injection E as <- _ _. rewrite Ef, E0. lia. }
  assert (Henter : forall m0,
             currentStep m0 = currentStep m ->
             handleEnter m0 s = Some ((m', cmd), s') ->
             stepNum (currentStep m) <= stepNum (currentStep m')).
  { intros m0 E0 E. apply handleEnter_forward in E. rewrite <- E0. exact E. }
  destruct (isFileBrowserStep m) eqn:Hb.
  - unfold handleFileBrowserKeys. destruct (searchMode m).
    + key_case key "ctrl+c"; [now apply Hsame |].
      key_case key "esc"; [now apply Hsame |].
      key_case key "enter"; [now apply Henter |].
      key_case key "backspace".
      { destruct (len (searchQuery m) >? 0);
          [now apply Hfuzzy | now apply Hsame]. }
      key_case key "up";
        [apply Hsame; unfold cursorUp; now destruct (_ >? _) |].
      key_case key "down";
        [apply Hsame; unfold cursorDown; now destruct (_ <? _) |].
      destruct (len key =? 1); [now apply Hfuzzy | now apply Hsame].
    + key_case key "ctrl+c"; [now apply Hsame |].
      key_case key "esc"; [now apply Hsame |].
      key_case key "/"; [now apply Hsame |].
      key_case key "up";
        [apply Hsame; unfold cursorUp; now destruct (_ >? _) |].
      key_case key "down";
        [apply Hsame; unfold cursorDown; now destruct (_ <? _) |].
      key_case key "k";
        [apply Hsame; unfold cursorUp; now destruct (_ >? _) |].
      key_case key "j";
        [apply Hsame; unfold cursorDown; now destruct (_ <? _) |].
      key_case key "enter"; [now apply Henter |].
      key_case key "backspace"; [| now apply Hsame].
      destruct (negb (String.eqb (currentDir m) "/")); [| now apply Hsame].
      unfold bind, loadDirectory, loadIconDirectory. simpl.
      destruct (currentStep m) eqn:Estep;
        match goal with
        | |- context [loadDirectoryWithFilter ?b ?m0 s] =>
            destruct (loadDirectoryWithFilter b m0 s) as [[m1 s1]|] eqn:El;
            [| discriminate];
            apply load_step in El; simpl in El;
            intros E; injection E as <- _ _; rewrite El, Estep; lia
        end.
  - key_case key "ctrl+c"; [now apply Hsame |].
    key_case key "esc"; [now apply Hsame |].
    key_case key "enter"; [now apply Henter |].
    key_case key "backspace".
    { destruct (len (input m) >? 0); now apply Hsame. }
    destruct (currentStep m) eqn:Estep; apply Hsame;
      first [exact Estep | reflexivity].
Qed.



(** X19: selecting a bundle file.  Enter on a file of the bundle browser,
    with search on or off, stores its path; when the configuration file
    does not exist the wizard goes to the directory step with
    [Applications] under the home directory as input and marks the first
    run; when the configuration loads it goes to the name step with the
    loaded directory. *)
Theorem bundle_selected_next_step :
  forall (m : model) (s : Sys World) (selected : fileEntry),
    currentStep m = stepFileBrowser ->
    index (files m) (cursor m) = Some selected ->
    isDir selected = false ->
    (os_IsNotExist (os_Stat (world s) (configPath m)) = true ->
     exists m',
       Update m (KeyMsg "enter") s = Some ((m', CmdNil), s)
       /\ currentStep m' = stepAppImageDir /\ firstTimeSetup m' = true
       /\ input m'
          = filepath.Join [fst (os_UserHomeDir (world s)); "Applications"]
       /\ appImagePath m' = path selected)
    /\ (os_IsNotExist (os_Stat (world s) (configPath m)) = false ->
        forall dir,
          loadConfig (configPath m) s = Some ((dir, None), s) ->
          exists m',
            Update m (KeyMsg "enter") s = Some ((m', CmdNil), s)
            /\ currentStep m' = stepAppName /\ appImageDir m' = dir
            /\ appImagePath m' = path selected).
Proof.
  intros m s selected Hstep Hsel Hfile.
  assert (Hlen : (llen (files m) =? 0) = false).
  { apply index_Some_in in Hsel as [_ Hr]. apply Z.eqb_neq. lia. }
  assert (Hupdate : Update m (KeyMsg "enter") s
                    = handleEnter (set_searchMode false m) s).
  { unfold Update, isFileBrowserStep. rewrite Hstep.
    unfold handleFileBrowserKeys. destruct (searchMode m) eqn:Es; simpl;
      [reflexivity |]. now rewrite (set_searchMode_same m false Es). }
  rewrite Hupdate. unfold handleEnter. simpl. rewrite Hstep, Hlen.
  unfold bind, lift. rewrite Hsel. simpl. rewrite Hfile.
  unfold bind, ask, ret. simpl.
  destruct (os_UserHomeDir (world s)) as [homeDir e]. simpl.
  split.
  - intros ->. eexists. split; [reflexivity |]. simpl. auto.
  - intros -> dir Hload. rewrite Hload. simpl.
    eexists. split; [reflexivity |]. simpl. auto.
Qed.

End Properties.

(** ** The theorems at work on the sample machines *)

Lemma findFrom_in_range (q : string) (labels : list string) (i : Z)
    (mt : Match) :
  In mt (Sample.findFrom q i labels) -> i <= Index mt < i + llen labels.
Proof.
  revert i; induction labels as [|l labels IH]; intros i; simpl; [intros [] |].
  assert (Hrest : In mt (Sample.findFrom q (i + 1) labels) ->
                  i <= Index mt < i + llen (l :: labels)).
  { intros Hin. apply IH in Hin. unfold llen in *.
    cbn [List.length]. lia. }
  destruct (Sample.subseq q l); [| exact Hrest].
  intros [<-|Hin]; [| now apply Hrest].
  unfold llen. cbn [List.length Index]. lia.
Qed.

Lemma sample_matcherInRange : @matcherInRange Sample.lib.
Proof.
  intros q labels mt Hin. apply findFrom_in_range in Hin. lia.
Qed.

(** As root, [cp] succeeds and the wizard still ends in the Error step. *)
Lemma unprivileged_copy_success_reports_failure_witness :
  exists s',
    pipeline Sample.bundle Sample.asRoot = Some (Some requiresPrivileges, s')
    /\ In (ok (Run ["cp"; "/tmp/my-app.desktop";
                    "/usr/share/applications/my-app.desktop"]))
          (newEvents Sample.asRoot s').
Proof.
  destruct (unprivileged_copy_success_reports_failure
              Sample.bundle Sample.asRoot) as (msg & s' & Hrun & Hmsg).
  assert (Hcp : In (ok (Run ["cp"; "/tmp/my-app.desktop";
                             "/usr/share/applications/my-app.desktop"]))
                   (newEvents Sample.asRoot s')).
  { vm_compute in Hrun. injection Hrun as _ <-. vm_compute. tauto. }
  destruct (Hmsg _ _ Hcp) as [-> _].
  exists s'. split; [exact Hrun | exact Hcp].
Defined.


Lemma install_destination_and_names_witness :
  Abs (world Sample.asRoot) (appImagePath Sample.bundle)
  = ("/tmp/App.bundle", None)
  /\ exists m' cmd s',
      install Sample.bundle Sample.asRoot = Some ((m', cmd), s')
      /\ exists r,
          In {| call := Rename "/tmp/App.bundle" "/home/u/Apps/App.bundle";
                result := r |}
             (newEvents Sample.asRoot s').
Proof.
  assert (Habs : Abs (world Sample.asRoot) (appImagePath Sample.bundle)
                 = ("/tmp/App.bundle", None)) by reflexivity.
  split; [exact Habs |].
  destruct (install_destination_and_names Sample.bundle Sample.asRoot _ Habs)
    as (m' & cmd & s' & tmpDir & Hrun & _ & _ & Hmove & _).
  exists m', cmd, s'. split; [exact Hrun |].
  apply (proj2 Hmove). vm_compute. discriminate.
Defined.

Lemma categories_normalized_on_confirm_witness :
  currentStep (set_input "Graphics" Sample.bundle) = stepCategories
  /\ exists m' cmd s',
      Update (set_input "Graphics" Sample.bundle) (KeyMsg "enter") Sample.denied
      = Some ((m', cmd), s')
      /\ categories m' = "Graphics;".
Proof.
  split; [reflexivity |].
  destruct (categories_normalized_on_confirm
              (set_input "Graphics" Sample.bundle) Sample.denied eq_refl)
    as (m' & cmd & s' & Hrun & _ & _ & _ & _ & Happend & _).
  exists m', cmd, s'. split; [exact Hrun |].
  apply Happend; [discriminate | reflexivity].
Defined.

Lemma listing_parent_first_and_filtered_witness :
  (forall entry,
      In entry (fst (os_ReadDir (world Sample.denied)
                       (currentDir Sample.browsing))) ->
      Name entry <> "..")
  /\ exists m',
      loadDirectoryWithFilter false Sample.browsing Sample.denied
      = Some (m', Sample.denied)
      /\ map name (files m') = [".."; "App.AppImage"; "old"; "tool.appimage"].
Proof.
  assert (Hdots : forall entry,
             In entry (fst (os_ReadDir (world Sample.denied)
                              (currentDir Sample.browsing))) ->
             Name entry <> "..").
  { vm_compute. intros entry Hin.
    repeat (destruct Hin as [<-|Hin]; [discriminate |]). destruct Hin. }
  split; [exact Hdots |].
  destruct (listing_parent_first_and_filtered false Sample.browsing
              Sample.denied Hdots) as (m' & Hrun & _).
  exists m'. split; [exact Hrun |].
  vm_compute in Hrun. injection Hrun as <-. reflexivity.
Defined.

Lemma cursor_stays_in_range_witness :
  @matcherInRange Sample.lib
  /\ isFileBrowserStep Sample.searching = true
  /\ cursorOK Sample.searching
  /\ exists m' cmd,
      Update Sample.searching (KeyMsg "z") Sample.denied
      = Some ((m', cmd), Sample.denied)
      /\ cursorOK m'.
Proof.
  assert (Hok : cursorOK Sample.searching)
    by (unfold cursorOK, llen; simpl; lia).
  split; [exact sample_matcherInRange |].
  split; [reflexivity |]. split; [exact Hok |].
  destruct (cursor_stays_in_range Sample.searching "z" Sample.denied
              sample_matcherInRange eq_refl Hok)
    as ((m' & cmd & Hrun & Hok' & _) & _).
  exists m', cmd. split; [exact Hrun | exact Hok'].
Defined.

(** C7 as the specification states it fails: Enter on an empty visible
    list is not always a no-op.  After searching for [z], which matches
    nothing, Enter switches search mode off. *)
Lemma enter_on_empty_search_changes_state :
  ~ (forall (m : model) (s : Sys Sample.World),
        isFileBrowserStep m = true -> cursorOK m -> files m = [] ->
        exists cmd, Update m (KeyMsg "enter") s = Some ((m, cmd), s)).
Proof.
  intros Hnoop.
  destruct (Hnoop Sample.noMatch Sample.denied eq_refl eq_refl eq_refl)
    as (cmd & Hrun).
  vm_compute in Hrun. discriminate Hrun.
Qed.

Lemma clearing_search_restores_listing_witness :
  isFileBrowserStep Sample.searching = true
  /\ searchMode Sample.searching = true
  /\ String.length (searchQuery Sample.searching) = 1%nat
  /\ files Sample.searching <> allFiles Sample.searching
  /\ (exists m',
         Update Sample.searching (KeyMsg "esc") Sample.denied
         = Some ((m', CmdNil), Sample.denied)
         /\ files m' = files Sample.browsing /\ cursor m' = 0)
  /\ (exists m',
         Update Sample.searching (KeyMsg "backspace") Sample.denied
         = Some ((m', CmdNil), Sample.denied)
         /\ files m' = files Sample.browsing /\ cursor m' = 0).
Proof.
  destruct (clearing_search_restores_listing Sample.searching Sample.denied
              eq_refl eq_refl) as (Hesc & Hback & _).
  split; [reflexivity |]. split; [reflexivity |]. split; [reflexivity |].
  split; [vm_compute; discriminate |]. split.
  - destruct Hesc as (m' & Hrun & Hfiles & Hcur & _).
    exists m'. split; [exact Hrun |]. split; [exact Hfiles | exact Hcur].
  - destruct (Hback eq_refl) as (m' & Hrun & Hfiles & Hcur & _).
    exists m'. split; [exact Hrun |]. split; [exact Hfiles | exact Hcur].
Defined.

Lemma unparsable_config_is_error_witness :
  currentStep Sample.onBundle = stepFileBrowser
  /\ isDir {| name := "App.AppImage"; path := "/home/u/Downloads/App.AppImage";
              isDir := false |} = false
  /\ exists m',
      Update Sample.onBundle (KeyMsg "enter") Sample.misconfigured
      = Some ((m', CmdNil), Sample.misconfigured)
      /\ currentStep m' = stepError
      /\ error m' <> "".
Proof.
  split; [reflexivity |]. split; [reflexivity |].
  destruct (unparsable_config_is_error Sample.onBundle Sample.misconfigured
              {| name := "App.AppImage";
                 path := "/home/u/Downloads/App.AppImage"; isDir := false |}
              ("DIR=/home/u/Apps" ++ LF))
    as (m' & Hrun & Hstep & _ & Herr & _);
    try reflexivity.
  - vm_compute. intros line Hin.
    repeat (destruct Hin as [<-|Hin]; [reflexivity |]). destruct Hin.
  - exists m'. split; [exact Hrun |]. split; [exact Hstep | exact Herr].
Defined.

Lemma icon_browse_starts_at_home_witness :
  currentStep (set_input "b" (set_currentDir "/tmp" (Sample.blank stepIcon)))
  = stepIcon
  /\ exists m',
      Update (set_input "b" (set_currentDir "/tmp" (Sample.blank stepIcon)))
        (KeyMsg "enter") Sample.denied
      = Some ((m', CmdNil), Sample.denied)
      /\ currentDir m' = "/home/u"
      /\ input m' = "".
Proof.
  split; [reflexivity |].
  destruct (icon_browse_starts_at_home
              (set_input "b" (set_currentDir "/tmp" (Sample.blank stepIcon)))
              Sample.denied eq_refl (or_introl eq_refl))
    as (m' & Hrun & _ & _ & Hdir & Hin & _).
  exists m'. split; [exact Hrun |]. split; [exact Hdir | exact Hin].
Defined.

(** C3 as the specification states it fails: the move is not skipped
    whenever the absolute paths of source and destination are identical.
    With the relative storage directory [old] and a bundle that already
    lies in [old] under the working directory, the destination resolves
    to the source path, and [install] still renames. *)
Lemma move_not_skipped_for_relative_directory :
  ~ (forall (m m' : model) (s s' : Sys Sample.World) (cmd : Cmd)
            (absPath destAbs : string),
        Abs (world s) (appImagePath m) = (absPath, None) ->
        Abs (world s) (filepath.Join [appImageDir m; filepath.Base absPath])
        = (destAbs, None) ->
        install m s = Some ((m', cmd), s') ->
        (absPath = destAbs <->
         forall oldpath newpath r,
           ~ In {| call := Rename oldpath newpath; result := r |}
                (newEvents s s'))).
Proof.
  intros Hskip.
  destruct (install Sample.relativeBundle Sample.inOld)
    as [[[m' cmd] s']|] eqn:Hrun; [| discriminate Hrun].
  pose proof (Hskip Sample.relativeBundle m' Sample.inOld s' cmd
                "/home/u/Downloads/old/App.AppImage"
                "/home/u/Downloads/old/App.AppImage"
                eq_refl eq_refl Hrun) as [Hnone _].
  vm_compute in Hrun. injection Hrun as _ _ <-.
  apply (Hnone eq_refl "/home/u/Downloads/old/App.AppImage"
           "old/App.AppImage" None).
  vm_compute. tauto.
Qed.

(** C8 as the specification states it fails: leaving search mode does not
    always restore the listing.  After searching for [z], which matches
    nothing, Enter leaves search mode and the visible list stays empty
    although the directory has entries. *)
Lemma enter_leaves_search_without_restoring :
  ~ (forall (m m' : model) (key : string) (cmd : Cmd)
            (s : Sys Sample.World),
        isFileBrowserStep m = true -> searchMode m = true ->
        Update m (KeyMsg key) s = Some ((m', cmd), s) ->
        searchMode m' = false ->
        files m' = allFiles m /\ cursor m' = 0).
Proof.
  intros Hrestore.
  destruct (Update Sample.noMatch (KeyMsg "enter") Sample.denied)
    as [[[m' cmd] s']|] eqn:Hrun; [| discriminate Hrun].
  vm_compute in Hrun. injection Hrun as <- <- <-.
  destruct (Hrestore Sample.noMatch _ "enter" _ Sample.denied
              eq_refl eq_refl eq_refl eq_refl) as [Hfiles _].
  discriminate Hfiles.
Qed.

(** ** The further properties on the sample machines *)

Lemma saved_config_loads_back_witness :
  hasByte (ascii_of_nat 10) "/home/u/Apps" = false
  /\ firstByte "/home/u/Apps" <> Some DQUOTE
  /\ lastByte "/home/u/Apps" <> Some DQUOTE
  /\ loadConfig "/home/u/.config/teabag.conf" Sample.asRoot
     = Some (("/home/u/Apps", None), Sample.asRoot).
Proof.
  assert (H1 : firstByte "/home/u/Apps" <> Some DQUOTE) by discriminate.
  assert (H2 : lastByte "/home/u/Apps" <> Some DQUOTE) by discriminate.
  split; [reflexivity |]. split; [exact H1 |]. split; [exact H2 |].
  destruct (saved_config_loads_back "/home/u/.config/teabag.conf"
              "/home/u/Apps" Sample.denied ltac:(reflexivity) H1 H2)
    as (err & s' & _ & _ & Hload).
  apply Hload. reflexivity.
Defined.

Lemma loadConfig_first_key_line_witness :
  strings.HasPrefix "APPIMAGE_DIR=/opt/apps" "APPIMAGE_DIR=" = true
  /\ loadConfig "/home/u/.config/teabag.conf" Sample.twoKeys
     = Some (("/opt/apps", None), Sample.twoKeys).
Proof.
  split; [reflexivity |].
  destruct (loadConfig_first_key_line "/home/u/.config/teabag.conf"
              Sample.twoKeys) as [_ Hfirst].
  apply (Hfirst Sample.twoKeysText ["# teabag"] "APPIMAGE_DIR=/opt/apps"
           ["APPIMAGE_DIR=/ignored"]); try reflexivity.
  intros l [<-|[]]. reflexivity.
Defined.

Lemma desktop_filename_shape_witness :
  strings.isASCII "My Photo App" = true
  /\ desktopFilenameOf "My Photo App" = "my-photo-app.desktop"
  /\ hasByte " "%char (desktopFilenameOf "My Photo App") = false.
Proof.
  split; [reflexivity |]. split; [reflexivity |].
  exact (proj1 (desktop_filename_shape "My Photo App" ltac:(reflexivity))).
Defined.

Lemma filters_ignore_case_witness :
  strings.isASCII "logo" = true /\ strings.isASCII ".PnG" = true
  /\ In (strings.mapBytes strings.lowerByte ".PnG") extensions
  /\ isImageFile ("logo" ++ ".PnG") = true.
Proof.
  assert (Hin : In (strings.mapBytes strings.lowerByte ".PnG") extensions)
    by (left; reflexivity).
  split; [reflexivity |]. split; [reflexivity |]. split; [exact Hin |].
  exact (proj1 (filters_ignore_case "logo" ".PnG" ltac:(reflexivity) ltac:(reflexivity)) Hin).
Defined.

Lemma listing_keeps_read_order_witness :
  os_ReadDir (world Sample.denied) "/home/u"
  = ([{| Name := "Apps"; IsDir := true |};
      {| Name := "Downloads"; IsDir := true |};
      {| Name := "logo.PNG"; IsDir := false |};
      {| Name := "notes.txt"; IsDir := false |}], None)
  /\ exists m',
      loadDirectoryWithFilter true
        (set_currentDir "/home/u" (Sample.blank stepIconBrowser)) Sample.denied
      = Some (m', Sample.denied)
      /\ map name (files m') = [".."; "Apps"; "Downloads"; "logo.PNG"].
Proof.
  assert (Hread : os_ReadDir (world Sample.denied) "/home/u"
                  = ([{| Name := "Apps"; IsDir := true |};
                      {| Name := "Downloads"; IsDir := true |};
                      {| Name := "logo.PNG"; IsDir := false |};
                      {| Name := "notes.txt"; IsDir := false |}], None))
    by reflexivity.
  split; [exact Hread |].
  destruct (listing_keeps_read_order true
              (set_currentDir "/home/u" (Sample.blank stepIconBrowser))
              Sample.denied _ Hread) as (m' & Hrun & Hfiles & _).
  exists m'. split; [exact Hrun |]. rewrite Hfiles. reflexivity.
Defined.

Lemma failed_read_leaves_empty_browser_witness :
  isFileBrowserStep (set_currentDir "/nowhere" (Sample.blank stepFileBrowser))
  = true
  /\ snd (os_ReadDir (world Sample.denied) "/nowhere") <> None
  /\ exists m',
      loadDirectoryWithFilter false
        (set_currentDir "/nowhere" (Sample.blank stepFileBrowser))
        Sample.denied
      = Some (m', Sample.denied)
      /\ files m' = []
      /\ error m'
         = "Failed to read directory: open /nowhere: no such file or directory".
Proof.
  split; [reflexivity |]. split; [discriminate |].
  destruct (failed_read_leaves_empty_browser false
              (set_currentDir "/nowhere" (Sample.blank stepFileBrowser))
              Sample.denied [] (Sample.noent "open" "/nowhere")
              ltac:(reflexivity) ltac:(reflexivity))
    as (m' & Hrun & Hfiles & _ & Herr & _).
  exists m'. split; [exact Hrun |]. split; [exact Hfiles | exact Herr].
Defined.

Lemma fuzzy_search_shows_matched_entries_witness :
  searchQuery Sample.searching <> ""
  /\ applyFuzzySearch Sample.searching <> None
  /\ forall m',
      applyFuzzySearch Sample.searching = Some m' ->
      incl (files m') (allFiles Sample.searching).
Proof.
  assert (Hq : searchQuery Sample.searching <> "") by discriminate.
  split; [exact Hq |]. split; [discriminate |].
  intros m' Hrun.
  destruct (fuzzy_search_shows_matched_entries Sample.searching Hq)
    as [_ Hshown].
  exact (proj1 (proj2 (Hshown m' Hrun))).
Defined.

Lemma fuzzy_search_idempotent_witness :
  applyFuzzySearch (set_cursor 3 Sample.searching)
  = Some (set_cursor 1 Sample.searching)
  /\ applyFuzzySearch (set_cursor 1 Sample.searching)
     = Some (set_cursor 1 Sample.searching).
Proof.
  assert (Hrun : applyFuzzySearch (set_cursor 3 Sample.searching)
                 = Some (set_cursor 1 Sample.searching)) by reflexivity.
  split; [exact Hrun |].
  exact (fuzzy_search_idempotent _ _ Hrun).
Defined.

Lemma quit_keys_witness :
  isFileBrowserStep Sample.searching && searchMode Sample.searching = true
  /\ Update Sample.searching (KeyMsg "ctrl+c") Sample.denied
     = Some ((Sample.searching, Quit), Sample.denied)
  /\ exists m',
      Update Sample.searching (KeyMsg "esc") Sample.denied
      = Some ((m', CmdNil), Sample.denied).
Proof.
  split; [reflexivity |].
  destruct (quit_keys Sample.searching Sample.denied) as (Hc & _ & Hesc).
  split; [exact Hc | exact (Hesc ltac:(reflexivity))].
Defined.

Lemma closing_steps_ignore_keys_witness :
  (currentStep (Sample.blank stepComplete) = stepProcessing
   \/ currentStep (Sample.blank stepComplete) = stepComplete
   \/ currentStep (Sample.blank stepComplete) = stepError)
  /\ Update (Sample.blank stepComplete) (KeyMsg "q") Sample.denied
     = Some ((Sample.blank stepComplete, CmdNil), Sample.denied).
Proof.
  assert (Hstep : currentStep (Sample.blank stepComplete) = stepProcessing
                  \/ currentStep (Sample.blank stepComplete) = stepComplete
                  \/ currentStep (Sample.blank stepComplete) = stepError)
    by (right; left; reflexivity).
  split; [exact Hstep |].
  destruct (closing_steps_ignore_keys (Sample.blank stepComplete) "q"
              Sample.denied Hstep)
    as (m' & cmd & Hrun & _ & Hsame & Hquit & Hcmd).
  rewrite Hrun.
  assert (Hm : m' = Sample.blank stepComplete)
    by (apply Hsame; left; discriminate).
  destruct Hcmd as [Hq | Hnil].
  - apply Hquit in Hq. destruct Hq as [Hq | [Hq | [Hq _]]]; discriminate Hq.
  - now rewrite Hm, Hnil.
Defined.

Lemma typed_byte_then_backspace_witness :
  isTextStep (currentStep (set_input "Ap" (Sample.blank stepAppName))) = true
  /\ exists m1,
      Update (set_input "Ap" (Sample.blank stepAppName)) (KeyMsg "p")
        Sample.denied
      = Some ((m1, CmdNil), Sample.denied)
      /\ input m1 = "App"
      /\ Update m1 (KeyMsg "backspace") Sample.denied
         = Some ((set_input "Ap" (Sample.blank stepAppName), CmdNil),
                 Sample.denied).
Proof.
  split; [reflexivity |].
  exact (typed_byte_then_backspace
           (set_input "Ap" (Sample.blank stepAppName)) "p"%char
           Sample.denied ltac:(reflexivity)).
Defined.

Lemma app_name_is_required_witness :
  currentStep (Sample.blank stepAppName) = stepAppName
  /\ input (Sample.blank stepAppName) = ""
  /\ Update (Sample.blank stepAppName) (KeyMsg "enter") Sample.denied
     = Some ((set_error "Application name is required"
                (Sample.blank stepAppName), CmdNil), Sample.denied).
Proof.
  split; [reflexivity |]. split; [reflexivity |].
  destruct (app_name_is_required (Sample.blank stepAppName) Sample.denied
              ltac:(reflexivity)) as (m' & Hrun & Hempty & _).
  rewrite Hrun, (Hempty ltac:(reflexivity)). reflexivity.
Defined.

Lemma icon_path_is_checked_witness :
  currentStep (set_input "/nope.png" (Sample.blank stepIcon)) = stepIcon
  /\ input (set_input "/nope.png" (Sample.blank stepIcon)) <> "b"
  /\ input (set_input "/nope.png" (Sample.blank stepIcon)) <> "B"
  /\ exists m',
      Update (set_input "/nope.png" (Sample.blank stepIcon)) (KeyMsg "enter")
        Sample.denied
      = Some ((m', CmdNil), Sample.denied)
      /\ currentStep m' = stepIcon
      /\ error m' = "Warning: Icon file not found: /nope.png".
Proof.
  assert (Hb : input (set_input "/nope.png" (Sample.blank stepIcon)) <> "b")
    by discriminate.
  assert (HB : input (set_input "/nope.png" (Sample.blank stepIcon)) <> "B")
    by discriminate.
  split; [reflexivity |]. split; [exact Hb |]. split; [exact HB |].
  destruct (icon_path_is_checked
              (set_input "/nope.png" (Sample.blank stepIcon)) Sample.denied
              ltac:(reflexivity) Hb HB) as (m' & Hrun & Hm').
  exists m'. split; [exact Hrun |].
  change (m' = set_error "Warning: Icon file not found: /nope.png"
                 (set_input "/nope.png" (Sample.blank stepIcon))) in Hm'.
  rewrite Hm'. split; reflexivity.
Defined.

Lemma storage_directory_confirmed_witness :
  currentStep (Sample.blank stepAppImageDir) = stepAppImageDir
  /\ exists m' s',
      Update (Sample.blank stepAppImageDir) (KeyMsg "enter") Sample.firstRun
      = Some ((m', CmdNil), s')
      /\ appImageDir m' = "/home/u/Applications"
      /\ currentStep m' = stepAppName
      /\ loadConfig "/home/u/.config/teabag.conf" s'
         = Some (("/home/u/Applications", None), s').
Proof.
  split; [reflexivity |].
  destruct (storage_directory_confirmed (Sample.blank stepAppImageDir)
              Sample.firstRun ltac:(reflexivity)) as (m' & s' & Hrun & Hdir & _).
  exists m', s'. split; [exact Hrun |]. split; [exact Hdir |].
  vm_compute in Hrun. injection Hrun as <- <-. split; reflexivity.
Defined.

Lemma pkexec_copy_decides_outcome_witness :
  exists s',
    pipeline Sample.bundle Sample.viaPkexec
    = Some (Some (installCompleteMsg None), s')
    /\ In (ok (Run ["pkexec"; "cp"; "/tmp/my-app.desktop";
                    "/usr/share/applications/my-app.desktop"]))
          (newEvents Sample.viaPkexec s').
Proof.
  destruct (pkexec_copy_decides_outcome Sample.bundle Sample.viaPkexec)
    as (msg & s' & Hrun & Hpk & _).
  assert (Hin : In (ok (Run ["pkexec"; "cp"; "/tmp/my-app.desktop";
                             "/usr/share/applications/my-app.desktop"]))
                   (newEvents Sample.viaPkexec s')).
  { vm_compute in Hrun. injection Hrun as _ <-. vm_compute. tauto. }
  destruct (Hpk _ _ _ Hin) as (-> & _).
  exists s'. split; [exact Hrun | exact Hin].
Defined.

Lemma keys_never_go_back_witness :
  exists m',
    Update Sample.onBundle (KeyMsg "enter") Sample.asRoot
    = Some ((m', CmdNil), Sample.asRoot)
    /\ currentStep m' = stepAppName
    /\ stepNum (currentStep Sample.onBundle) <= stepNum (currentStep m').
Proof.
  destruct (Update Sample.onBundle (KeyMsg "enter") Sample.asRoot)
    as [[[m' cmd] s']|] eqn:Hrun; [| discriminate Hrun].
  pose proof (keys_never_go_back _ _ _ _ _ _ Hrun) as Hforward.
  vm_compute in Hrun. injection Hrun as <- <- <-.
  eexists. split; [reflexivity |]. split; [reflexivity | exact Hforward].
Defined.



Lemma bundle_selected_next_step_witness :
  currentStep Sample.onBundle = stepFileBrowser
  /\ os_IsNotExist (os_Stat (world Sample.asRoot) (configPath Sample.onBundle))
     = false
  /\ exists m',
      Update Sample.onBundle (KeyMsg "enter") Sample.asRoot
      = Some ((m', CmdNil), Sample.asRoot)
      /\ currentStep m' = stepAppName
      /\ appImageDir m' = "/home/u/Apps"
      /\ appImagePath m' = "/home/u/Downloads/App.AppImage".
Proof.
  split; [reflexivity |]. split; [reflexivity |].
  destruct (bundle_selected_next_step Sample.onBundle Sample.asRoot
              {| name := "App.AppImage";
                 path := "/home/u/Downloads/App.AppImage"; isDir := false |}
              ltac:(reflexivity) ltac:(reflexivity) ltac:(reflexivity)) as [_ Hloaded].
  exact (Hloaded ltac:(reflexivity) "/home/u/Apps" ltac:(reflexivity)).
Defined.
